(** * The agent loops of [src/agent.ts] (class [BaseAIAgent])

    A shallow embedding of the mention poller ([checkMentions],
    [pollMentions], [handleTweet]), of the weighted prompt selector
    ([generateAutonomousAction]) and of the autonomous poster
    ([runAutonomousMode]), followed by the properties of the specification
    that concern them.

    - JavaScript numbers are kept behind the interface [Number]. The
      properties of the selector are stated for every instance or for the
      binary64 floats of the kernel ([PrimFloat.float], the arithmetic
      JavaScript uses); the rationals [Q] serve in the scripted scenarios,
      for the draws and the durations.
    - A JavaScript string is a [string]: one [ascii] per code unit, which
      covers the code units 0..255.
    - The external collaborators (random source, language model, Twitter
      client, timers) are functions of an abstract world; every call is
      recorded, with its outcome, in the list of events a computation emits.
    - Inside one loop the [async] methods run one after the other, so a
      method is a state transformer that may throw: the monad [Method]. The
      two loops share no field that either of them writes
      ([processedTweets] belongs to the poller), and each loop is modelled
      on its own. *)

From Stdlib Require Import ZArith QArith String Ascii List PrimFloat Uint63.
From stdpp Require Import base gmap strings.
Import ListNotations.

Local Open Scope string_scope.
Local Open Scope list_scope.

(* stdpp's solvers clear hypotheses by name; the note they print when a
   name is already gone is of no interest here. *)
Set Warnings "-clear-no-such-hyp".

(** ** Values thrown and results *)

Inductive error : Type :=
| Error (message : string)
| TypeError (message : string).

Inductive result (A : Type) : Type :=
| Ok (a : A)
| Throw (e : error).
Arguments Ok {A} a.
Arguments Throw {A} e.

(** ** JavaScript numbers *)

Class Number (num : Type) : Type := {
  num_of_Z : Z -> num;
  num_add : num -> num -> num;
  num_sub : num -> num -> num;
  num_mul : num -> num -> num;
  num_leb : num -> num -> bool
}.

#[export] Instance Number_Q : Number Q := {|
  num_of_Z := inject_Z;
  num_add := Qplus;
  num_sub := Qminus;
  num_mul := Qmult;
  num_leb := Qle_bool
|}.

Definition float_of_Z (z : Z) : float :=
  match z with
  | Z0 => PrimFloat.of_uint63 0%uint63
  | Zpos _ => PrimFloat.of_uint63 (Uint63.of_Z z)
  | Zneg _ => PrimFloat.opp (PrimFloat.of_uint63 (Uint63.of_Z (Z.opp z)))
  end.

#[export] Instance Number_float : Number float := {|
  num_of_Z := float_of_Z;
  num_add := PrimFloat.add;
  num_sub := PrimFloat.sub;
  num_mul := PrimFloat.mul;
  num_leb := PrimFloat.leb
|}.

(** ** The weighted selector (agent.ts, lines 145-217) *)

Section Selector.
Context {num : Type} `{Number num}.

(** An element of [weightedPrompts]: [{ prompt, weight }]. *)
Record WeightedPrompt : Type := { prompt : string; weight : num }.

(** [weightedPrompts.reduce((sum, item) => sum + item.weight, 0)] *)
Definition totalWeight (weightedPrompts : list WeightedPrompt) : num :=
  fold_left (fun sum item => num_add sum (weight item))
            weightedPrompts (num_of_Z 0).

(** The [for ... of] loop of lines 208-213: [Some p] when the loop returns
    [p], [None] when it runs off the end of the array. *)
Fixpoint walk (weightedPrompts : list WeightedPrompt) (random : num)
  : option string :=
  match weightedPrompts with
  | [] => None
  | item :: rest =>
      let random := num_sub random (weight item) in
      if num_leb random (num_of_Z 0) then Some (prompt item)
      else walk rest random
  end.

(** Lines 208-216: the loop, then [return weightedPrompts[0].prompt].
    On an empty array [weightedPrompts[0]] is [undefined] and reading
    [.prompt] throws. *)
Definition select (weightedPrompts : list WeightedPrompt) (random : num)
  : result string :=
  match walk weightedPrompts random with
  | Some p => Ok p
  | None =>
      match weightedPrompts with
      | first :: _ => Ok (prompt first)
      | [] =>
          Throw (TypeError
                   "Cannot read properties of undefined (reading 'prompt')")
      end
  end.

(** The value of [random] after the first [k] subtractions of the loop. *)
Definition running (weightedPrompts : list WeightedPrompt) (random : num)
           (k : nat) : num :=
  fold_left (fun r item => num_sub r (weight item))
            (firstn k weightedPrompts) random.

Definition item (p : string) (w : Z) : WeightedPrompt :=
  {| prompt := p; weight := num_of_Z w |}.

(** The table of lines 147-196. *)
Definition weightedPrompts : list WeightedPrompt :=
  [ item "Share an interesting fact or insight about Base blockchain or Layer 2 solutions" 4;
    item "Discuss a recent development or trend in the crypto ecosystem" 4;
    item "Explain a basic crypto concept in a simple, engaging way" 4;
    item "Share tips about web3 development or using CDP tools" 4;
    item "Start a discussion about the future of DeFi or NFTs" 3;
    item "Ask the community about their favorite web3 tools or projects" 3;
    item "Share an interesting use case of blockchain technology" 3;
    item "Highlight a cool feature of Base or CDP" 3;
    item "Share what you can do as an AI agent on Base" 2;
    item "Explain one of your capabilities or tools" 2;
    item "Share a success story or interesting interaction" 2;
    item "Deploy a creative meme token with an interesting concept" 1;
    item "Create an NFT collection about current crypto trends" 1 ].

End Selector.

Arguments WeightedPrompt num : clear implicits.

(** ** Strings *)

Definition nl : string := String (ascii_of_nat 10) EmptyString.
Definition dquote : string := String (ascii_of_nat 34) EmptyString.

(** Truthiness of a string value: every string but the empty one. *)
Definition truthy (s : string) : bool :=
  match s with
  | EmptyString => false
  | String _ _ => true
  end.

(** The white space and line terminators that [String.prototype.trim]
    removes, among the code units 0..255: TAB, LF, VT, FF, CR, SP, NBSP. *)
Definition isWhiteSpace (c : ascii) : bool :=
  match nat_of_ascii c with
  | 9%nat | 10%nat | 11%nat | 12%nat | 13%nat | 32%nat | 160%nat => true
  | _ => false
  end.

Fixpoint trimStart (s : string) : string :=
  match s with
  | EmptyString => EmptyString
  | String c rest => if isWhiteSpace c then trimStart rest else s
  end.

Fixpoint trimEnd (s : string) : string :=
  match s with
  | EmptyString => EmptyString
  | String c rest =>
      match trimEnd rest with
      | EmptyString =>
          if isWhiteSpace c then EmptyString else String c EmptyString
      | rest' => String c rest'
      end
  end.

(** [String.prototype.trim] *)
Definition trim (s : string) : string := trimEnd (trimStart s).

(** ** The data of the Twitter client *)

Module Ref.
Record t : Type := { type : string; id : string }.
End Ref.

Module Tweet.
Record t : Type := {
  id : string;
  text : string;
  author_id : option string;
  referenced_tweets : option (list Ref.t)
}.
End Tweet.

Module User.
Record t : Type := { id : string; username : string }.
End User.

(** What [userMentionTimeline] resolves to. [tweets] is [None] when
    [mentions.tweets] is not an array, [includes_users] is [None] when
    [mentions.includes] or [mentions.includes.users] is undefined. *)
Module Timeline.
Record t : Type := {
  tweets : option (list Tweet.t);
  includes_users : option (list User.t)
}.
End Timeline.

(** ** Events: the calls a method makes to the outside, with their outcome *)

Section Events.
Context {num : Type}.

Inductive event : Type :=
| MathRandom (r : num)
| GenerateContent (userMessage : string) (res : result string)
| V2Tweet (text : string) (res : result string)
| V2Reply (text : string) (in_reply_to : string) (res : result string)
| UserMentionTimeline (since_id : option string)
                      (res : result (option Timeline.t))
| SetTimeout (ms : num)
| ConsoleLog (msg : string)
| ConsoleError (msg : string) (e : error)
| EnterHandleTweet (tweetText authorUsername tweetId : string).
End Events.
Arguments event num : clear implicits.

(** ** The agent *)

(** The fields of [BaseAIAgent] that the loops read or write. [model] says
    whether [this.model] has been set by [initialize]. *)
Record agent : Type := {
  model : bool;
  processedTweets : gset string;
  lastProcessedMentionId : option string
}.

(** The agent as the constructor leaves it, once [initialize] has run. *)
Definition initial : agent :=
  {| model := true; processedTweets := ∅; lastProcessedMentionId := None |}.

(** The collaborators, as functions of the world they change. The three
    Twitter calls resolve to the [data.id] of the created tweet or to the
    fetched timeline; [generateContent] resolves to
    [result.response.text()]. *)
Record Collaborators (num World : Type) : Type := {
  Math_random : World -> num * World;
  generateContent : string -> World -> result string * World;
  v2_tweet : string -> World -> result string * World;
  v2_reply : string -> string -> World -> result string * World;
  v2_userMentionTimeline :
    option string -> World -> result (option Timeline.t) * World;
  setTimeout : num -> World -> World
}.
Arguments Math_random {num World} _ _.
Arguments generateContent {num World} _ _ _.
Arguments v2_tweet {num World} _ _ _.
Arguments v2_reply {num World} _ _ _ _.
Arguments v2_userMentionTimeline {num World} _ _ _.
Arguments setTimeout {num World} _ _ _.

Record state (World : Type) : Type := { this : agent; world : World }.
Arguments this {World} _.
Arguments world {World} _.

(** The outcome of running a method: what it returned or threw, the state
    it left, and the events it emitted, oldest first. *)
Record run (num World A : Type) : Type := {
  value : result A;
  after : state World;
  emitted : list (event num)
}.
Arguments value {num World A} _.
Arguments after {num World A} _.
Arguments emitted {num World A} _.

Definition Method (num World A : Type) : Type :=
  state World -> run num World A.

(** *** The monad *)

Section Monad.
Context {num World : Type}.

Local Abbreviation M := (Method num World).

Definition ret {A} (a : A) : M A :=
  fun s => {| value := Ok a; after := s; emitted := [] |}.

Definition throw {A} (e : error) : M A :=
  fun s => {| value := Throw e; after := s; emitted := [] |}.

Definition bind {A B} (m : M A) (k : A -> M B) : M B :=
  fun s =>
    match m s with
    | {| value := Ok a; after := s1; emitted := evs1 |} =>
        match k a s1 with
        | {| value := r; after := s2; emitted := evs2 |} =>
            {| value := r; after := s2; emitted := evs1 ++ evs2 |}
        end
    | {| value := Throw e; after := s1; emitted := evs1 |} =>
        {| value := Throw e; after := s1; emitted := evs1 |}
    end.

(** [try { m } catch (error) { handler error }] *)
Definition try_catch {A} (m : M A) (handler : error -> M A) : M A :=
  fun s =>
    match m s with
    | {| value := Ok a; after := s1; emitted := evs1 |} =>
        {| value := Ok a; after := s1; emitted := evs1 |}
    | {| value := Throw e; after := s1; emitted := evs1 |} =>
        match handler e s1 with
        | {| value := r; after := s2; emitted := evs2 |} =>
            {| value := r; after := s2; emitted := evs1 ++ evs2 |}
        end
    end.

Definition emit (e : event num) : M unit :=
  fun s => {| value := Ok tt; after := s; emitted := [e] |}.

Definition get : M agent :=
  fun s => {| value := Ok (this s); after := s; emitted := [] |}.

Definition modify (f : agent -> agent) : M unit :=
  fun s => {| value := Ok tt;
              after := {| this := f (this s); world := world s |};
              emitted := [] |}.

(** A call to a collaborator that may reject. *)
Definition call {A} (f : World -> result A * World)
           (record : result A -> event num) : M A :=
  fun s =>
    let (r, w) := f (world s) in
    {| value := r; after := {| this := this s; world := w |};
       emitted := [record r] |}.
End Monad.

Notation "x <- m ;; k" := (bind m (fun x => k))
  (at level 20, m at level 99, k at level 200, only parsing).
Notation "m ;; k" := (bind m (fun _ => k))
  (at level 100, k at level 200, right associativity, only parsing).

Section Methods.
Context {num : Type} `{Number num} {World : Type}.
Variable ext : Collaborators num World.

Local Abbreviation M := (Method num World).

(** [for (const x of xs) body] where [body] ends normally or by [continue]. *)
Fixpoint for_of {A} (xs : list A) (body : A -> M unit) : M unit :=
  match xs with
  | [] => ret tt
  | x :: rest => body x ;; for_of rest body
  end.

Definition console_log (msg : string) : M unit := emit (ConsoleLog msg).

Definition console_error (msg : string) (e : error) : M unit :=
  emit (ConsoleError msg e).

(** [await new Promise((resolve) => setTimeout(resolve, ms))] *)
Definition sleep (ms : num) : M unit :=
  fun s =>
    {| value := Ok tt;
       after := {| this := this s; world := setTimeout ext ms (world s) |};
       emitted := [SetTimeout ms] |}.

(** [Math.random()] *)
Definition random : M num :=
  fun s =>
    let (r, w) := Math_random ext (world s) in
    {| value := Ok r; after := {| this := this s; world := w |};
       emitted := [MathRandom r] |}.

(** Lines 98-103. *)
Definition callLLM (userMessage : string) : M string :=
  a <- get ;;
  if negb (model a) then throw (Error "LLM not initialized")
  else
    text <- call (generateContent ext userMessage)
                 (GenerateContent userMessage) ;;
    ret text.

(** [this.processedTweets.has(tweetId)] *)
Definition has_processed (tweetId : string) (a : agent) : bool :=
  bool_decide (tweetId ∈ processedTweets a).
Arguments has_processed : simpl never.

(** [this.processedTweets.add(tweetId)] *)
Definition add_processed (tweetId : string) (a : agent) : agent :=
  {| model := model a;
     processedTweets := {[ tweetId ]} ∪ processedTweets a;
     lastProcessedMentionId := lastProcessedMentionId a |}.

Definition reply_prompt (tweetText authorUsername : string) : string :=
  "User @" ++ authorUsername ++ " tweeted: " ++ dquote ++ tweetText ++ dquote
  ++ nl ++ nl
  ++ "Please provide a helpful response that could be sent as a reply. "
  ++ "Keep it short, engaging, and use emojis where appropriate. "
  ++ "Do not use markdown or HTML.".

(** Lines 106-143. The first event is the record of the call itself. *)
Definition handleTweet (tweetText authorUsername tweetId : string) : M unit :=
  emit (EnterHandleTweet tweetText authorUsername tweetId) ;;
  a <- get ;;
  if has_processed tweetId a then
    console_log ("Tweet " ++ tweetId ++ " already processed, skipping...")
  else
    try_catch
      (console_log ("Processing tweet " ++ tweetId ++ " from @"
                    ++ authorUsername ++ ": " ++ tweetText) ;;
       modify (add_processed tweetId) ;;
       response <- callLLM (reply_prompt tweetText authorUsername) ;;
       console_log ("Agent response: " ++ response) ;;
       if truthy response && truthy (trim response) then
         try_catch
           (id <- call (v2_reply ext response tweetId)
                       (V2Reply response tweetId) ;;
            console_log ("Reply sent: " ++ id))
           (fun error => console_error "Error sending reply:" error)
       else ret tt)
      (fun error => console_error "Error handling tweet:" error).

(** Lines 145-217: the table, its total, one draw, the walk. *)
Definition generateAutonomousAction : M string :=
  let totalWeight := totalWeight weightedPrompts in
  r <- random ;;
  let random := num_mul r totalWeight in
  match select weightedPrompts random with
  | Ok p => ret p
  | Throw e => throw e
  end.

Definition tweet_prompt (thought : string) : string :=
  "Create an engaging tweet based on this idea: " ++ thought ++ nl ++ nl
  ++ "Guidelines:" ++ nl
  ++ "- Focus on providing value through information and engagement" ++ nl
  ++ "- Keep tweets concise and friendly (under 280 characters)" ++ nl
  ++ "- Use emojis appropriately" ++ nl
  ++ "- Include hashtags like #Base #Web3 when relevant" ++ nl
  ++ "- Don't use markdown or HTML" ++ nl
  ++ "Just provide the tweet text directly.".

(** The first two steps of an iteration (lines 222-234): the topic is
    selected, the tweet is generated. *)
Definition selectAndGenerate : M string :=
  thought <- generateAutonomousAction ;;
  callLLM (tweet_prompt thought).

(** [interval * 1000] and [60 * 1000] *)
Definition seconds (interval : num) : num := num_mul interval (num_of_Z 1000).

(** One iteration of the [while (true)] of lines 220-252. *)
Definition autonomousIteration (interval : num) : M unit :=
  try_catch
    (thought <- generateAutonomousAction ;;
     response <- callLLM (tweet_prompt thought) ;;
     console_log ("Generated tweet: " ++ response) ;;
     (if truthy response && truthy (trim response) then
        try_catch
          (id <- call (v2_tweet ext response) (V2Tweet response) ;;
           console_log ("Tweet sent: " ++ id))
          (fun error => console_error "Error sending tweet:" error)
      else ret tt) ;;
     sleep (seconds interval))
    (fun error =>
       console_error "Error in autonomous mode:" error ;;
       sleep (seconds (num_of_Z 60))).

(** Lines 219-253: the first [iterations] iterations of the loop. *)
Fixpoint runAutonomousMode (iterations : nat) (interval : num) : M unit :=
  match iterations with
  | O => ret tt
  | S n => autonomousIteration interval ;; runAutonomousMode n interval
  end.

(** The [since_id] option of line 264: present when the cursor is truthy. *)
Definition since_id (a : agent) : option string :=
  match lastProcessedMentionId a with
  | Some c => if truthy c then Some c else None
  | None => None
  end.

(** [tweet.referenced_tweets?.some((ref) => ref.type === "retweet")],
    as the condition of the [if] of line 279. *)
Definition isRetweet (tweet : Tweet.t) : bool :=
  match Tweet.referenced_tweets tweet with
  | Some refs => existsb (fun ref => String.eqb (Ref.type ref) "retweet") refs
  | None => false
  end.

(** [mentions.includes?.users?.find((user) => user.id === tweet.author_id)] *)
Definition findAuthor (mentions : Timeline.t) (tweet : Tweet.t)
  : option User.t :=
  match Timeline.includes_users mentions with
  | Some users =>
      find (fun user =>
              match Tweet.author_id tweet with
              | Some a => String.eqb (User.id user) a
              | None => false
              end) users
  | None => None
  end.

(** The body of the [for] of lines 274-291. *)
Definition mentionStep (mentions : Timeline.t) (tweet : Tweet.t) : M unit :=
  if isRetweet tweet then ret tt
  else
    match findAuthor mentions tweet with
    | Some author =>
        handleTweet (Tweet.text tweet) (User.username author)
                    (Tweet.id tweet) ;;
        sleep (num_of_Z 1000)
    | None => ret tt
    end.

(** Lines 255-296. *)
Definition checkMentions : M unit :=
  try_catch
    (a <- get ;;
     mentions <- call (v2_userMentionTimeline ext (since_id a))
                      (UserMentionTimeline (since_id a)) ;;
     match mentions with
     | Some mentions =>
         match Timeline.tweets mentions with
         | Some tweets => for_of tweets (mentionStep mentions)
         | None => ret tt
         end
     | None => ret tt
     end)
    (fun error => console_error "Error checking mentions:" error).

(** The [while (true)] of lines 303-306, [iterations] times. *)
Fixpoint pollLoop (iterations : nat) (interval : num) : M unit :=
  match iterations with
  | O => ret tt
  | S n => checkMentions ;; sleep (seconds interval) ;; pollLoop n interval
  end.

(** Lines 299-307: the first [iterations] iterations of the loop. *)
Definition pollMentions (iterations : nat) (interval : num) : M unit :=
  console_log "Started polling for mentions..." ;;
  pollLoop iterations interval.
End Methods.

(** ** What a list of events shows *)

Section Observations.
Context {num : Type}.

(** The calls of [handleTweet], as [(tweetText, authorUsername, tweetId)]. *)
Definition handlerCalls (evs : list (event num))
  : list (string * string * string) :=
  flat_map (fun e => match e with
                     | EnterHandleTweet t u i => [(t, u, i)]
                     | _ => []
                     end) evs.

(** The texts passed to [twitterClient.v2.tweet]. *)
Definition tweetCalls (evs : list (event num)) : list string :=
  flat_map (fun e => match e with V2Tweet t _ => [t] | _ => [] end) evs.

(** The durations of the timers awaited. *)
Definition sleeps (evs : list (event num)) : list num :=
  flat_map (fun e => match e with SetTimeout ms => [ms] | _ => [] end) evs.

(** The [since_id] of each call to [userMentionTimeline]. *)
Definition fetches (evs : list (event num)) : list (option string) :=
  flat_map (fun e => match e with
                     | UserMentionTimeline c _ => [c]
                     | _ => []
                     end) evs.

(** The calls to the language model and to the reply sink. *)
Definition generatorOrReplyCalls (evs : list (event num))
  : list (event num) :=
  flat_map (fun e => match e with
                     | GenerateContent _ _ | V2Reply _ _ _ => [e]
                     | _ => []
                     end) evs.
End Observations.

(** The calls of [handleTweet] that a batch leads to: one for each tweet
    that is not a retweet and whose author is found, in order. *)
Definition dispatched (mentions : Timeline.t) (tweets : list Tweet.t)
  : list (string * string * string) :=
  flat_map (fun tweet =>
              if isRetweet tweet then []
              else match findAuthor mentions tweet with
                   | Some author =>
                       [(Tweet.text tweet, User.username author,
                         Tweet.id tweet)]
                   | None => []
                   end) tweets.

(** ** A scripted world

    Each collaborator answers from its own queue, oldest first; a
    collaborator whose queue is empty rejects (the random source draws 0). *)

Record Script : Type := {
  draws : list Q;
  generations : list (result string);
  tweetResults : list (result string);
  replyResults : list (result string);
  timelines : list (result (option Timeline.t))
}.

Definition unscripted {A} : result A := Throw (Error "503 Service Unavailable").

Definition scripted : Collaborators Q Script := {|
  Math_random w :=
    (hd 0%Q (draws w),
     {| draws := tl (draws w); generations := generations w;
        tweetResults := tweetResults w; replyResults := replyResults w;
        timelines := timelines w |});
  generateContent _ w :=
    (hd unscripted (generations w),
     {| draws := draws w; generations := tl (generations w);
        tweetResults := tweetResults w; replyResults := replyResults w;
        timelines := timelines w |});
  v2_tweet _ w :=
    (hd unscripted (tweetResults w),
     {| draws := draws w; generations := generations w;
        tweetResults := tl (tweetResults w); replyResults := replyResults w;
        timelines := timelines w |});
  v2_reply _ _ w :=
    (hd unscripted (replyResults w),
     {| draws := draws w; generations := generations w;
        tweetResults := tweetResults w; replyResults := tl (replyResults w);
        timelines := timelines w |});
  v2_userMentionTimeline _ w :=
    (hd unscripted (timelines w),
     {| draws := draws w; generations := generations w;
        tweetResults := tweetResults w; replyResults := replyResults w;
        timelines := tl (timelines w) |});
  setTimeout _ w := w
|}.

(** The initialised agent in a scripted world. *)
Definition start (w : Script) : state Script :=
  {| this := initial; world := w |}.

(** *** Scenarios *)

(** Three weights that are not integers, 0.6, 0.2 and 0.9 as binary64
    values: their sum, taken as [totalWeight] takes it, is
    1.7000000000000002. *)
Definition drifting : list (WeightedPrompt float) :=
  [ {| prompt := "p1"; weight := 0x1.3333333333333p-1%float |};
    {| prompt := "p2"; weight := 0x1.999999999999ap-3%float |};
    {| prompt := "p3"; weight := 0x1.ccccccccccccdp-1%float |} ].

(** Four positive integer weights whose sum rounds: in binary64
    [totalWeight] gives 2^53 + 12 for the exact sum 2^53 + 9. *)
Definition heavy : list (WeightedPrompt float) :=
  [ item "p1" (2 ^ 53); item "p2" 3; item "p3" 3; item "p4" 3 ].

(** The largest value [Math.random()] can return: 1 - 2^-53. *)
Definition almostOne : float := 0x1.fffffffffffffp-1%float.

(** The two-option list of the end-to-end scenario. *)
Definition twoOptions (num : Type) `{Number num} (p1 p2 : string)
  : list (WeightedPrompt num) :=
  [ item p1 4; item p2 1 ].

Definition alice : User.t := {| User.id := "7"; User.username := "alice" |}.
Definition bob : User.t := {| User.id := "8"; User.username := "bob" |}.

Definition mention1 : Tweet.t :=
  {| Tweet.id := "1001"; Tweet.text := "@agent gm";
     Tweet.author_id := Some "7"; Tweet.referenced_tweets := None |}.

Definition mention2 : Tweet.t :=
  {| Tweet.id := "1002"; Tweet.text := "RT @agent hello";
     Tweet.author_id := Some "8";
     Tweet.referenced_tweets :=
       Some [ {| Ref.type := "retweet"; Ref.id := "990" |} ] |}.

Definition mention3 : Tweet.t :=
  {| Tweet.id := "1003"; Tweet.text := "@agent what is Base?";
     Tweet.author_id := Some "8"; Tweet.referenced_tweets := None |}.

(** A page of three mentions with both authors expanded. *)
Definition page : Timeline.t :=
  {| Timeline.tweets := Some [mention1; mention2; mention3];
     Timeline.includes_users := Some [alice; bob] |}.

(** The same page where the expansion lacks the author of the first. *)
Definition pageWithoutAlice : Timeline.t :=
  {| Timeline.tweets := Some [mention1; mention2; mention3];
     Timeline.includes_users := Some [bob] |}.

(** The language model is down; the timeline answers [page] twice. *)
Definition generatorDown : Script :=
  {| draws := []; generations := []; tweetResults := []; replyResults := [];
     timelines := [Ok (Some page); Ok (Some page)] |}.

(** The language model answers, the publish sink rejects. *)
Definition publishDown : Script :=
  {| draws := [1 # 2]; generations := [Ok "gm Base builders"];
     tweetResults := [Throw (Error "429 Too Many Requests")];
     replyResults := []; timelines := [] |}.

(** The language model answers white space only. *)
Definition blankGeneration : Script :=
  {| draws := [1 # 2]; generations := [Ok "  "];
     tweetResults := [Ok "2001"]; replyResults := []; timelines := [] |}.

(** The timeline answers [pageWithoutAlice]; everything else works. *)
Definition aliceMissing : Script :=
  {| draws := []; generations := [Ok "Base is an L2"; Ok "gm"];
     tweetResults := []; replyResults := [Ok "3001"; Ok "3002"];
     timelines := [Ok (Some pageWithoutAlice)] |}.

(** The timeline rejects. *)
Definition timelineDown : Script :=
  {| draws := []; generations := []; tweetResults := []; replyResults := [];
     timelines := [Throw (Error "401 Unauthorized")] |}.

(** What no method changes: the model, the cursor, and the identifiers
    already in [processedTweets]. *)
Definition steady (a a' : agent) : Prop :=
  model a' = model a /\
  lastProcessedMentionId a' = lastProcessedMentionId a /\
  processedTweets a ⊆ processedTweets a'.

(** Everything answers: two pages, two answers of the model per page. *)
Definition allUp : Script :=
  {| draws := [1 # 2];
     generations := [Ok "gm alice"; Ok "Base is an L2"; Ok "gm"; Ok "again"];
     tweetResults := [Ok "2001"];
     replyResults := [Ok "3001"; Ok "3002"; Ok "3003"; Ok "3004"];
     timelines := [Ok (Some page); Ok (Some page)] |}.

(** ** More of what a list of events shows *)

Section MoreObservations.
Context {num : Type}.

(** The calls to [twitterClient.v2.reply] whose target is [tweetId]. *)
Definition repliesTo (tweetId : string) (evs : list (event num))
  : list (event num) :=
  flat_map (fun e => match e with
                     | V2Reply _ target _ =>
                         if String.eqb target tweetId then [e] else []
                     | _ => []
                     end) evs.

(** The calls to [twitterClient.v2.reply], as [(text, in_reply_to)]. *)
Definition replyCalls (evs : list (event num)) : list (string * string) :=
  flat_map (fun e => match e with
                     | V2Reply text target _ => [(text, target)]
                     | _ => []
                     end) evs.

(** The prompts passed to the language model. *)
Definition generations_of (evs : list (event num)) : list string :=
  flat_map (fun e => match e with
                     | GenerateContent p _ => [p]
                     | _ => []
                     end) evs.
End MoreObservations.

(** The identifiers of the tweets of a batch that reach the handler. *)
Definition dispatchedIds (mentions : Timeline.t) (tweets : list Tweet.t)
  : list string :=
  map (fun c => c.2) (dispatched mentions tweets).

(** A method that answers a given tweet at most once: it returns normally,
    keeps what [steady] says, replies to [tweetId] at most once, not at all
    when [tweetId] is already in [processedTweets], and leaves [tweetId] in
    [processedTweets] when it has replied to it. *)
Definition repliesOnce {num World : Type} (tweetId : string)
           (m : Method num World unit) : Prop :=
  forall s : state World,
    value (m s) = Ok tt /\
    steady (this s) (this (after (m s))) /\
    (length (repliesTo tweetId (emitted (m s))) <= 1)%nat /\
    (tweetId ∈ processedTweets (this s) ->
     repliesTo tweetId (emitted (m s)) = []) /\
    (repliesTo tweetId (emitted (m s)) <> [] ->
     tweetId ∈ processedTweets (this (after (m s)))).

(** A string made of white space only (the empty string included). *)
Definition blank (s : string) : bool :=
  forallb isWhiteSpace (list_ascii_of_string s).

(** A method that, run with [this.model] unset, returns normally, leaves
    the model unset, and calls neither the language model nor a sink. *)
Definition inert {num World : Type} (m : Method num World unit) : Prop :=
  forall s : state World,
    model (this s) = false ->
    value (m s) = Ok tt /\
    model (this (after (m s))) = false /\
    generatorOrReplyCalls (emitted (m s)) = [] /\
    tweetCalls (emitted (m s)) = [].

(** ** The [send_tweet] tool (agent.ts, lines 68-87) *)

(** [s.split(sep)] for a separator of one code unit. *)
Fixpoint split (sep : ascii) (s : string) : list string :=
  match s with
  | EmptyString => [EmptyString]
  | String c rest =>
      if Ascii.eqb c sep then EmptyString :: split sep rest
      else match split sep rest with
           | piece :: pieces => String c piece :: pieces
           | [] => [String c EmptyString]
           end
  end.

(** [s.split(sep, limit)]: the first [limit] pieces. *)
Definition split_limit (sep : ascii) (limit : nat) (s : string)
  : list string :=
  take limit (split sep s).

(** No code unit of [s] is a colon. *)
Definition colonFree (s : string) : bool :=
  forallb (fun c => negb (Ascii.eqb c ":")) (list_ascii_of_string s).

(** The two calls of the Twitter client that the tool makes. An argument
    that the destructuring of line 75 left [undefined] is [None]. *)
Record TwitterClient (World : Type) : Type := {
  client_tweet : string -> World -> result string * World;
  client_reply :
    option string -> option string -> World -> result string * World
}.
Arguments client_tweet {World} _ _ _.
Arguments client_reply {World} _ _ _ _.

(** What a call of the tool gives: its result, the world it leaves, and
    what it wrote with [console.error]. *)
Record toolRun (World : Type) : Type := {
  returned : result string;
  world_after : World;
  logged : list (string * error)
}.
Arguments returned {World} _.
Arguments world_after {World} _.
Arguments logged {World} _.

Section SendTweet.
Context {World : Type}.
Variable client : TwitterClient World.

(** The [try] block of lines 74-81. *)
Definition send_tweet_try (input : string) (w : World)
  : result string * World :=
  if String.prefix "REPLY:" input then
    let parts := split_limit ":" 3 input in
    let replyToId := parts !! 1%nat in
    let text := parts !! 2%nat in
    match client_reply client text replyToId w with
    | (Ok id, w') => (Ok ("Tweet sent as reply: " ++ id)%string, w')
    | (Throw e, w') => (Throw e, w')
    end
  else
    match client_tweet client input w with
    | (Ok id, w') => (Ok ("Tweet sent: " ++ id)%string, w')
    | (Throw e, w') => (Throw e, w')
    end.

(** The [func] of the tool: the [try] block and its [catch]. *)
Definition send_tweet (input : string) (w : World) : toolRun World :=
  match send_tweet_try input w with
  | (Ok r, w') => {| returned := Ok r; world_after := w'; logged := [] |}
  | (Throw e, w') =>
      {| returned := Throw (Error "Failed to send tweet");
         world_after := w';
         logged := [("Error sending tweet:", e)] |}
  end.
End SendTweet.

(** A client that records its calls in the world; it publishes under the
    identifier 2001 and rejects a reply without text. *)
Inductive clientCall : Type :=
| CallTweet (text : string)
| CallReply (text replyToId : option string).

Definition recordingClient : TwitterClient (list clientCall) := {|
  client_tweet text w :=
    (Ok "2001", w ++ [CallTweet text]);
  client_reply text replyToId w :=
    match text with
    | Some _ => (Ok "2001", w ++ [CallReply text replyToId])
    | None => (Throw (Error "400 Bad Request"),
               w ++ [CallReply text replyToId])
    end
|}.

(** What the tool makes of the answer of the client: the identifier after
    [sent], or the error logged and replaced. *)
Definition toolOutcome {World : Type} (sent : string)
           (answer : result string * World) : toolRun World :=
  match answer with
  | (Ok id, w') =>
      {| returned := Ok (sent ++ id)%string; world_after := w';
         logged := [] |}
  | (Throw e, w') =>
      {| returned := Throw (Error "Failed to send tweet");
         world_after := w';
         logged := [("Error sending tweet:", e)] |}
  end.

(** ** [initialize] (agent.ts, lines 36-96) *)

Definition backslash : ascii := ascii_of_nat 92.
Definition newline : ascii := ascii_of_nat 10.

(** [s.replace(/\\n/g, "\n")]: every backslash followed by [n] becomes one
    line feed, from left to right. *)
Fixpoint unescapeNewlines (s : string) : string :=
  match s with
  | EmptyString => EmptyString
  | String c rest =>
      match rest with
      | String c' rest' =>
          if Ascii.eqb c backslash && Ascii.eqb c' "n"
          then String newline (unescapeNewlines rest')
          else String c (unescapeNewlines rest)
      | EmptyString => String c EmptyString
      end
  end.

(** Whether [s] holds a backslash followed by [n]. *)
Fixpoint hasEscape (s : string) : bool :=
  match s with
  | EmptyString => false
  | String c rest =>
      match rest with
      | String c' _ =>
          (Ascii.eqb c backslash && Ascii.eqb c' "n") || hasEscape rest
      | EmptyString => false
      end
  end.

(** A tool, as far as the registry goes. *)
Module Tool.
Record t : Type := { name : string; description : string }.
End Tool.

(** The tool of lines 68-87; its [func] is [send_tweet]. *)
Definition twitterTool : Tool.t :=
  {| Tool.name := "send_tweet";
     Tool.description :=
       "Send a tweet. Input format: for new tweet just send the text, for replies use format 'REPLY:tweetId:text'" |}.

(** Lines 63-65: [for (const tool of agentKitTools)
    this.tools.set(tool.name, tool)]. *)
Definition registerAll (agentKitTools : list Tool.t)
           (tools : gmap string Tool.t) : gmap string Tool.t :=
  fold_left (fun tools tool => <[Tool.name tool := tool]> tools)
            agentKitTools tools.

(** Lines 62-89: the tools of AgentKit are registered, then the Twitter
    tool under its name. *)
Definition registerTools (agentKitTools : list Tool.t)
           (tools : gmap string Tool.t) : gmap string Tool.t :=
  <["send_tweet" := twitterTool]> (registerAll agentKitTools tools).

(** The variables of [process.env] that [initialize] reads. *)
Record Env : Type := {
  CDP_API_KEY_NAME : option string;
  CDP_API_KEY_PRIVATE_KEY : option string;
  GOOGLE_API_KEY : option string
}.

(** The argument of [configureWithWallet]. *)
Record WalletConfig : Type := {
  apiKeyId : option string;
  apiKeySecret : option string;
  networkId : string
}.

Definition WALLET_DATA_FILE : string := "wallet_data.txt".

(** The services [initialize] calls. [exportWallet] resolves to the wallet
    data in the form [JSON.stringify] gives it. *)
Record Platform (Wallet Kit World : Type) : Type := {
  configureWithWallet : WalletConfig -> World -> result Wallet * World;
  AgentKit_from : Wallet -> World -> result Kit * World;
  getLangChainTools : Kit -> World -> result (list Tool.t) * World;
  exportWallet : Wallet -> World -> result string * World;
  writeFileSync : string -> string -> World -> result unit * World
}.
Arguments configureWithWallet {Wallet Kit World} _ _ _.
Arguments AgentKit_from {Wallet Kit World} _ _ _.
Arguments getLangChainTools {Wallet Kit World} _ _ _.
Arguments exportWallet {Wallet Kit World} _ _ _.
Arguments writeFileSync {Wallet Kit World} _ _ _ _.

(** The fields of [BaseAIAgent] that [initialize] writes, around the fields
    of [agent]. *)
Record instance (Kit : Type) : Type := {
  agentKit : option Kit;
  core : agent;
  tools : gmap string Tool.t
}.
Arguments agentKit {Kit} _.
Arguments core {Kit} _.
Arguments tools {Kit} _.

(** What a call of [initialize] gives. *)
Record initRun (Kit World : Type) : Type := {
  init_result : result unit;
  init_instance : instance Kit;
  init_world : World;
  init_logged : list string
}.
Arguments init_result {Kit World} _.
Arguments init_instance {Kit World} _.
Arguments init_world {Kit World} _.
Arguments init_logged {Kit World} _.

Section Initialize.
Context {Wallet Kit World : Type}.
Variable platform : Platform Wallet Kit World.
Variable env : Env.

Definition rejected (e : error) (i : instance Kit) (w : World)
  : initRun Kit World :=
  {| init_result := Throw e; init_instance := i; init_world := w;
     init_logged := [] |}.

(** [!process.env.GOOGLE_API_KEY] *)
Definition keyMissing : bool :=
  match GOOGLE_API_KEY env with
  | Some key => negb (truthy key)
  | None => true
  end.

Definition set_model (a : agent) : agent :=
  {| model := true; processedTweets := processedTweets a;
     lastProcessedMentionId := lastProcessedMentionId a |}.

(** The argument of line 38-42. *)
Definition walletConfig : WalletConfig :=
  {| apiKeyId := CDP_API_KEY_NAME env;
     apiKeySecret := option_map unescapeNewlines (CDP_API_KEY_PRIVATE_KEY env);
     networkId := "base-sepolia" |}.

(** Lines 36-96. *)
Definition initialize (i : instance Kit) (w : World) : initRun Kit World :=
  match configureWithWallet platform walletConfig w with
  | (Throw e, w1) => rejected e i w1
  | (Ok walletProvider, w1) =>
  match AgentKit_from platform walletProvider w1 with
  | (Throw e, w2) => rejected e i w2
  | (Ok kit, w2) =>
  let i1 := {| agentKit := Some kit; core := core i; tools := tools i |} in
  if keyMissing then
    rejected (Error "GOOGLE_API_KEY must be set in .env file") i1 w2
  else
  let i2 := {| agentKit := Some kit; core := set_model (core i);
               tools := tools i |} in
  match getLangChainTools platform kit w2 with
  | (Throw e, w3) => rejected e i2 w3
  | (Ok agentKitTools, w3) =>
  let i3 := {| agentKit := Some kit; core := set_model (core i);
               tools := registerTools agentKitTools (tools i) |} in
  match exportWallet platform walletProvider w3 with
  | (Throw e, w4) => rejected e i3 w4
  | (Ok walletData, w4) =>
  match writeFileSync platform WALLET_DATA_FILE walletData w4 with
  | (Throw e, w5) => rejected e i3 w5
  | (Ok _, w5) =>
      {| init_result := Ok tt; init_instance := i3; init_world := w5;
         init_logged := ["Agent initialized on Base Sepolia"] |}
  end end end end end.
End Initialize.

(** The instance as the constructor leaves it. *)
Definition constructed {Kit : Type} : instance Kit :=
  {| agentKit := None;
     core := {| model := false; processedTweets := ∅;
                lastProcessedMentionId := None |};
     tools := ∅ |}.

(** A platform where every service answers; the world is the list of the
    calls made, oldest first. AgentKit brings two tools, one of them under
    the name of the Twitter tool. *)
Inductive serviceCall : Type :=
| ConfigureWithWallet (config : WalletConfig)
| AgentKitFrom
| GetLangChainTools
| ExportWallet
| WriteFileSync (file data : string).

Definition balanceTool : Tool.t :=
  {| Tool.name := "get_balance"; Tool.description := "Get the balance" |}.

Definition rivalTool : Tool.t :=
  {| Tool.name := "send_tweet"; Tool.description := "Another tool" |}.

Definition workingPlatform : Platform unit unit (list serviceCall) := {|
  configureWithWallet config w := (Ok tt, w ++ [ConfigureWithWallet config]);
  AgentKit_from _ w := (Ok tt, w ++ [AgentKitFrom]);
  getLangChainTools _ w :=
    (Ok [balanceTool; rivalTool], w ++ [GetLangChainTools]);
  exportWallet _ w := (Ok "{}", w ++ [ExportWallet]);
  writeFileSync file data w := (Ok tt, w ++ [WriteFileSync file data])
|}.

Definition envWithoutGoogleKey : Env :=
  {| CDP_API_KEY_NAME := Some "key-name";
     CDP_API_KEY_PRIVATE_KEY :=
       Some (String "a" (String backslash (String "n" (String "b" ""))));
     GOOGLE_API_KEY := None |}.

Definition envComplete : Env :=
  {| CDP_API_KEY_NAME := Some "key-name";
     CDP_API_KEY_PRIVATE_KEY :=
       Some (String "a" (String backslash (String "n" (String "b" ""))));
     GOOGLE_API_KEY := Some "google-key" |}.

(** * Properties *)

(** ** The walk, for any arithmetic *)

Section WalkFacts.
Context {num : Type} `{Number num}.
Implicit Types (opts : list (WeightedPrompt num)) (r : num).

Lemma running_O opts r : running opts r 0 = r.
Proof. reflexivity. Qed.

Lemma running_cons o opts r k :
  running (o :: opts) r (S k) = running opts (num_sub r (weight o)) k.
Proof. reflexivity. Qed.

(** When the loop returns, it returns the prompt of the first option after
    whose subtraction the running value is [<= 0]. *)
Lemma walk_Some opts r p :
  walk opts r = Some p ->
  exists k o,
    opts !! k = Some o /\ prompt o = p /\
    num_leb (running opts r (S k)) (num_of_Z 0) = true /\
    forall j, (j < k)%nat ->
              num_leb (running opts r (S j)) (num_of_Z 0) = false.
Proof.
  revert r. induction opts as [|o opts IH]; intros r Hw; [discriminate|].
  simpl in Hw.
  destruct (num_leb (num_sub r (weight o)) (num_of_Z 0)) eqn:E.
  - injection Hw as <-. exists 0%nat, o. repeat split; try done.
    intros j Hj. inversion Hj.
  - destruct (IH _ Hw) as (k & o' & Hk & Hp & Hle & Hbefore).
    exists (S k), o'. repeat split; try done.
    intros [|j] Hj.
    + exact E.
    + rewrite running_cons. apply Hbefore. apply Nat.succ_lt_mono, Hj.
Qed.

(** The loop runs off the end exactly when no running value is [<= 0]. *)
Lemma walk_None opts r :
  walk opts r = None <->
  forall j, (j < length opts)%nat ->
            num_leb (running opts r (S j)) (num_of_Z 0) = false.
Proof.
  revert r. induction opts as [|o opts IH]; intros r; simpl.
  - split; [intros _ j Hj; inversion Hj | done].
  - destruct (num_leb (num_sub r (weight o)) (num_of_Z 0)) eqn:E.
    + split; [discriminate|]. intros Hall.
      specialize (Hall 0%nat (Nat.lt_0_succ _)).
      rewrite running_cons, running_O in Hall. congruence.
    + rewrite IH. split.
      * intros Hall [|j] Hj; [exact E|].
        rewrite running_cons. apply Hall. apply Nat.succ_lt_mono, Hj.
      * intros Hall j Hj. rewrite <- running_cons. apply Hall.
        apply -> Nat.succ_lt_mono. exact Hj.
Qed.

(** When some running value is [<= 0], the loop returns, at the first
    option where one is. *)
Lemma walk_first opts r k0 :
  (k0 < length opts)%nat ->
  num_leb (running opts r (S k0)) (num_of_Z 0) = true ->
  exists k o,
    opts !! k = Some o /\ walk opts r = Some (prompt o) /\ (k <= k0)%nat /\
    num_leb (running opts r (S k)) (num_of_Z 0) = true /\
    forall j, (j < k)%nat ->
              num_leb (running opts r (S j)) (num_of_Z 0) = false.
Proof.
  intros Hk0 Hle0.
  destruct (walk opts r) as [p|] eqn:Hw.
  - destruct (walk_Some opts r p Hw) as (k & o & Hk & <- & Hle & Hbefore).
    exists k, o. repeat split; try done.
    destruct (Nat.le_gt_cases k k0) as [Hkk|Hkk]; [exact Hkk|].
    specialize (Hbefore k0 Hkk). congruence.
  - pose proof (proj1 (walk_None opts r) Hw k0 Hk0). congruence.
Qed.

(** The selector fails on the empty array only. *)
Lemma select_nonempty o opts r : exists p, select (o :: opts) r = Ok p.
Proof.
  unfold select. destruct (walk (o :: opts) r); eauto.
Qed.

(** After a walk that ran off the end, the selector answers with the first
    option. *)
Lemma select_fallback o opts r :
  walk (o :: opts) r = None -> select (o :: opts) r = Ok (prompt o).
Proof. unfold select. intros ->. reflexivity. Qed.
End WalkFacts.

(** ** The claims on the selector, in the arithmetic of the code *)

Section SelectorClaims.




(** C2, as the specification words it: after a walk that ran off the end,
    the selector would answer with the last option. It does not. On the
    positive integer weights [2^53, 3, 3, 3] and the draw that the largest
    value of [Math.random()] gives, a draw below the total, the walk runs
    off the end in binary64 and the answer is [p1], not [p4]. *)
Lemma C2_fallback_is_not_the_last_option :
  ~ (forall (opts : list (WeightedPrompt float)) (u : float),
        PrimFloat.leb 0 u = true -> PrimFloat.ltb u 1 = true ->
        PrimFloat.ltb 0 (totalWeight opts) = true ->
        walk opts (PrimFloat.mul u (totalWeight opts)) = None ->
        exists o, last opts = Some o /\
                  select opts (PrimFloat.mul u (totalWeight opts))
                  = Ok (prompt o)).
Proof.
  intros Hclaim.
  destruct (Hclaim heavy almostOne) as (o & Hlast & Hsel);
    try (vm_compute; reflexivity).
  injection Hlast as <-. vm_compute in Hsel. discriminate Hsel.
Qed.

(** The same with weights that are not integers: on the weights 0.6, 0.2,
    0.9 and the draw 1.7, below their total, the three subtractions leave a
    positive value, and the answer is the first option. *)
Example binary64_drift_answers_the_first_option :
  PrimFloat.leb 0 0x1.b333333333333p+0 = true /\
  PrimFloat.ltb 0x1.b333333333333p+0 (totalWeight drifting) = true /\
  walk drifting 0x1.b333333333333p+0%float = None /\
  select drifting 0x1.b333333333333p+0%float = Ok "p1".
Proof. repeat split; vm_compute; reflexivity. Qed.

(** C2, amended. In binary64, for every list of positive total weight and
    every draw, if the walk consumes the whole list without the running
    value becoming [<= 0], the selector returns the prompt of the first
    option of the list; it does not fail. *)
Theorem C2_fallback_is_the_first_option :
  forall (opts : list (WeightedPrompt float)) (r : float),
    PrimFloat.ltb 0 (totalWeight opts) = true ->
    walk opts r = None ->
    exists o rest, opts = o :: rest /\ select opts r = Ok (prompt o).
Proof.
  intros opts r Hpos Hw. destruct opts as [|o rest].
  - vm_compute in Hpos. discriminate Hpos.
  - exists o, rest. split; [reflexivity|]. by apply select_fallback.
Qed.

(** C2 at work: the draw below the total that runs off the end of
    [heavy]. *)
Lemma C2_fallback_is_the_first_option_witness :
  exists o rest,
    heavy = o :: rest /\
    select heavy (PrimFloat.mul almostOne (totalWeight heavy))
    = Ok (prompt o).
Proof.
  apply (C2_fallback_is_the_first_option
           heavy (PrimFloat.mul almostOne (totalWeight heavy))).
  - vm_compute. reflexivity.
  - vm_compute. reflexivity.
Defined.
End SelectorClaims.

(** ** The mention poller and the handler *)

Section AgentFacts.
Context {num : Type} `{Number num} {World : Type}.
Variable ext : Collaborators num World.
Implicit Types (s : state World) (a : agent).

Lemma steady_refl a : steady a a.
Proof. by repeat split. Qed.

Lemma steady_trans a1 a2 a3 : steady a1 a2 -> steady a2 a3 -> steady a1 a3.
Proof.
  intros (Hm1 & Hc1 & Hp1) (Hm2 & Hc2 & Hp2).
  repeat split; [congruence | congruence | set_solver].
Qed.

Lemma has_processed_true tweetId a :
  has_processed tweetId a = true <-> tweetId ∈ processedTweets a.
Proof. unfold has_processed. apply bool_decide_eq_true. Qed.

Lemma has_processed_false tweetId a :
  has_processed tweetId a = false <-> tweetId ∉ processedTweets a.
Proof. unfold has_processed. apply bool_decide_eq_false. Qed.

Ltac unfold_monad :=
  unfold callLLM, bind, try_catch, get, emit, modify, console_log,
    console_error, call, sleep, random, ret, throw.

(** [handleTweet] never throws; it leaves [tweetId] in [processedTweets] and
    nothing else changed in the agent; it awaits no timer and fetches
    nothing. *)
Lemma handleTweet_run tweetText authorUsername tweetId s :
  let o := handleTweet ext tweetText authorUsername tweetId s in
  value o = Ok tt /\
  processedTweets (this (after o))
  = {[ tweetId ]} ∪ processedTweets (this s) /\
  lastProcessedMentionId (this (after o)) = lastProcessedMentionId (this s) /\
  model (this (after o)) = model (this s) /\
  handlerCalls (emitted o) = [(tweetText, authorUsername, tweetId)] /\
  sleeps (emitted o) = [] /\ fetches (emitted o) = [].
Proof.
  unfold handleTweet. unfold_monad. simpl.
  destruct (has_processed tweetId (this s)) eqn:Hhas; simpl.
  - apply has_processed_true in Hhas. repeat split; try done. set_solver.
  - destruct (model (this s)) eqn:Hm; simpl; [|by repeat split].
    destruct (generateContent ext _ (world s)) as [[response|e] w] eqn:Hg;
      simpl; [|by repeat split].
    destruct (truthy response && truthy (trim response)) eqn:Ht; simpl;
      [|by repeat split].
    destruct (v2_reply ext response tweetId w) as [[id|e] w'] eqn:Hr; simpl;
      by repeat split.
Qed.

(** On an identifier already in [processedTweets], [handleTweet] logs that
    it skips, and does nothing else. *)
Lemma handleTweet_skip tweetText authorUsername tweetId s :
  tweetId ∈ processedTweets (this s) ->
  handleTweet ext tweetText authorUsername tweetId s =
  {| value := Ok tt; after := s;
     emitted := [ EnterHandleTweet tweetText authorUsername tweetId;
                  ConsoleLog ("Tweet " ++ tweetId
                              ++ " already processed, skipping...") ] |}.
Proof.
  intros Hin. apply has_processed_true in Hin.
  unfold handleTweet. unfold_monad. simpl. rewrite Hin. reflexivity.
Qed.

Lemma handleTweet_steady tweetText authorUsername tweetId s :
  steady (this s)
         (this (after (handleTweet ext tweetText authorUsername tweetId s))).
Proof.
  destruct (handleTweet_run tweetText authorUsername tweetId s)
    as (_ & Hp & Hc & Hm & _).
  repeat split; [done | done | set_solver].
Qed.

(** *** Running a sequence *)

Lemma bind_Ok {A B} (m : Method num World A) (k : A -> Method num World B)
      s (x : A) :
  value (m s) = Ok x ->
  bind m k s =
  {| value := value (k x (after (m s)));
     after := after (k x (after (m s)));
     emitted := emitted (m s) ++ emitted (k x (after (m s))) |}.
Proof.
  unfold bind. destruct (m s) as [v s1 evs1]. simpl. intros ->.
  by destruct (k x s1).
Qed.

Lemma bind_Throw {A B} (m : Method num World A) (k : A -> Method num World B)
      s e :
  value (m s) = Throw e ->
  bind m k s =
  {| value := Throw e; after := after (m s); emitted := emitted (m s) |}.
Proof.
  unfold bind. destruct (m s) as [v s1 evs1]. simpl. by intros ->.
Qed.

Lemma try_catch_Ok {A} (m : Method num World A) handler s (x : A) :
  value (m s) = Ok x -> try_catch m handler s = m s.
Proof.
  unfold try_catch. destruct (m s) as [v s1 evs1]. simpl. by intros ->.
Qed.

Lemma for_of_app {A} (xs ys : list A) (body : A -> Method num World unit) s :
  for_of (xs ++ ys) body s = bind (for_of xs body) (fun _ => for_of ys body) s.
Proof.
  revert s. induction xs as [|x xs IH]; intros s; simpl.
  - unfold bind, ret. by destruct (for_of ys body s).
  - unfold bind. destruct (body x s) as [[[]|e] s1 evs1]; [|done].
    rewrite IH. unfold bind.
    destruct (for_of xs body s1) as [[[]|e'] s2 evs2]; [|done].
    destruct (for_of ys body s2). by rewrite app_assoc.
Qed.

(** One step of the loop over the batch. *)
Lemma mentionStep_run mentions tweet s :
  let o := mentionStep ext mentions tweet s in
  value o = Ok tt /\ steady (this s) (this (after o)) /\
  handlerCalls (emitted o) = dispatched mentions [tweet] /\
  fetches (emitted o) = [].
Proof.
  unfold mentionStep, dispatched. simpl.
  destruct (isRetweet tweet); [by repeat split; try apply steady_refl|].
  destruct (findAuthor mentions tweet) as [author|];
    [|by repeat split; try apply steady_refl].
  pose proof (handleTweet_run (Tweet.text tweet) (User.username author)
                (Tweet.id tweet) s) as (Hv & _ & _ & _ & Hcalls & _ & Hf).
  pose proof (handleTweet_steady (Tweet.text tweet) (User.username author)
                (Tweet.id tweet) s) as Hst.
  rewrite (bind_Ok _ _ _ _ Hv). unfold sleep. simpl.
  repeat split; try apply Hst.
  - unfold handlerCalls in *. rewrite flat_map_app, Hcalls. reflexivity.
  - unfold fetches in *. rewrite flat_map_app, Hf. reflexivity.
Qed.

(** The loop over the batch: it never throws, whatever the handler meets,
    and calls the handler for every tweet to dispatch, in order. *)
Lemma for_of_mentionStep_run mentions tweets s :
  let o := for_of tweets (mentionStep ext mentions) s in
  value o = Ok tt /\ steady (this s) (this (after o)) /\
  handlerCalls (emitted o) = dispatched mentions tweets /\
  fetches (emitted o) = [].
Proof.
  revert s. induction tweets as [|tweet tweets IH]; intros s; simpl.
  - repeat split; try done.
  - destruct (mentionStep_run mentions tweet s) as (Hv & Hst & Hcalls & Hf).
    rewrite (bind_Ok _ _ _ _ Hv). simpl.
    destruct (IH (after (mentionStep ext mentions tweet s)))
      as (Hv' & Hst' & Hcalls' & Hf').
    split; [exact Hv'|]. split; [exact (steady_trans _ _ _ Hst Hst')|]. split.
    + unfold handlerCalls in *. rewrite flat_map_app, Hcalls, Hcalls'.
      unfold dispatched. simpl. rewrite app_nil_r. reflexivity.
    + unfold fetches in *. rewrite flat_map_app, Hf, Hf'. reflexivity.
Qed.
End AgentFacts.

Section PollerFacts.
Context {num : Type} `{Number num} {World : Type}.
Variable ext : Collaborators num World.
Implicit Types (s : state World) (a : agent).

Lemma since_id_steady a a' : steady a a' -> since_id a' = since_id a.
Proof. intros (_ & Hc & _). unfold since_id. by rewrite Hc. Qed.

(** The cycle once the fetch has answered a batch. *)
Lemma checkMentions_batch s mentions tweets w :
  v2_userMentionTimeline ext (since_id (this s)) (world s)
  = (Ok (Some mentions), w) ->
  Timeline.tweets mentions = Some tweets ->
  let o := for_of tweets (mentionStep ext mentions)
             {| this := this s; world := w |} in
  checkMentions ext s =
  {| value := Ok tt; after := after o;
     emitted := UserMentionTimeline (since_id (this s)) (Ok (Some mentions))
                :: emitted o |}.
Proof.
  intros Hf Ht o.
  destruct (for_of_mentionStep_run ext mentions tweets
              {| this := this s; world := w |}) as (Hv & _).
  fold o in Hv.
  unfold checkMentions, try_catch, bind, get, call, console_error, emit, ret.
  simpl. rewrite Hf, Ht. fold o. destruct o as [v s1 evs1].
  simpl in Hv. by rewrite Hv.
Qed.

(** A cycle whose fetch throws logs the error and changes nothing in the
    agent. *)
Lemma checkMentions_fetch_throws s e w :
  v2_userMentionTimeline ext (since_id (this s)) (world s) = (Throw e, w) ->
  checkMentions ext s =
  {| value := Ok tt; after := {| this := this s; world := w |};
     emitted := [ UserMentionTimeline (since_id (this s)) (Throw e);
                  ConsoleError "Error checking mentions:" e ] |}.
Proof.
  intros Hf.
  unfold checkMentions, try_catch, bind, get, call, console_error, emit, ret.
  simpl. rewrite Hf. reflexivity.
Qed.

(** A cycle never throws, fetches once, and changes neither the model nor
    the cursor. *)
Lemma checkMentions_run s :
  let o := checkMentions ext s in
  value o = Ok tt /\ steady (this s) (this (after o)) /\
  fetches (emitted o) = [since_id (this s)].
Proof.
  destruct (v2_userMentionTimeline ext (since_id (this s)) (world s))
    as [[[mentions|]|e] w] eqn:Hf.
  - destruct (Timeline.tweets mentions) as [tweets|] eqn:Ht.
    + simpl. rewrite (checkMentions_batch s mentions tweets w Hf Ht).
      destruct (for_of_mentionStep_run ext mentions tweets
                  {| this := this s; world := w |}) as (_ & Hst & _ & Hfe).
      simpl in *. rewrite Hfe. by repeat split; try apply Hst.
    + unfold checkMentions, try_catch, bind, get, call, console_error, emit,
        ret. simpl. rewrite Hf, Ht. simpl. by repeat split.
  - unfold checkMentions, try_catch, bind, get, call, console_error, emit,
      ret. simpl. rewrite Hf. simpl. by repeat split.
  - simpl. rewrite (checkMentions_fetch_throws s e w Hf). by repeat split.
Qed.

(** A cycle whose fetch answers a batch calls the handler for every tweet
    to dispatch, in order. *)
Lemma checkMentions_dispatch s mentions tweets w :
  v2_userMentionTimeline ext (since_id (this s)) (world s)
  = (Ok (Some mentions), w) ->
  Timeline.tweets mentions = Some tweets ->
  handlerCalls (emitted (checkMentions ext s)) = dispatched mentions tweets.
Proof.
  intros Hf Ht. rewrite (checkMentions_batch s mentions tweets w Hf Ht).
  apply (for_of_mentionStep_run ext mentions tweets
           {| this := this s; world := w |}).
Qed.

(** The loop of [pollMentions] never stops on an error: each of its
    iterations fetches once, with the same [since_id]. *)
Lemma pollLoop_run iterations interval s :
  let o := pollLoop ext iterations interval s in
  value o = Ok tt /\ steady (this s) (this (after o)) /\
  fetches (emitted o) = repeat (since_id (this s)) iterations.
Proof.
  revert s. induction iterations as [|n IH]; intros s; simpl.
  - repeat split; try done.
  - destruct (checkMentions_run s) as (Hv & Hst & Hfe).
    rewrite (bind_Ok _ _ _ _ Hv). simpl.
    rewrite (bind_Ok _ _ _ tt) by reflexivity. simpl.
    set (s1 := {| this := this (after (checkMentions ext s));
                  world := setTimeout ext (seconds interval)
                             (world (after (checkMentions ext s))) |}).
    destruct (IH s1) as (Hv' & Hst' & Hfe').
    split; [exact Hv'|]. split; [exact (steady_trans _ _ _ Hst Hst')|].
    unfold fetches in *. rewrite flat_map_app, Hfe. simpl. rewrite Hfe'.
    subst s1. simpl. by rewrite (since_id_steady _ _ Hst).
Qed.

Lemma pollMentions_run iterations interval s :
  let o := pollMentions ext iterations interval s in
  value o = Ok tt /\ steady (this s) (this (after o)) /\
  fetches (emitted o) = repeat (since_id (this s)) iterations.
Proof.
  unfold pollMentions. simpl.
  rewrite (bind_Ok _ _ _ tt) by reflexivity. simpl.
  apply pollLoop_run.
Qed.

(** A cursor, once set, is what every later fetch passes as [since_id]. *)
Lemma checkMentions_passes_cursor s c :
  lastProcessedMentionId (this s) = Some c -> c <> "" ->
  fetches (emitted (checkMentions ext s)) = [Some c].
Proof.
  intros Hc Hne. destruct (checkMentions_run s) as (_ & _ & ->).
  unfold since_id. rewrite Hc. destruct c; [done | reflexivity].
Qed.
End PollerFacts.

(** ** The claims on the poller *)

Section PollerClaims.
Local Open Scope Q_scope.

(** C1. The cursor is never advanced. No method assigns
    [lastProcessedMentionId]: after any number of cycles it is what it was,
    and every fetch passes the same [since_id]. From the initial agent, a
    cycle that receives the tweets 1001, 1002 and 1003 leaves the cursor
    unset, and the next cycle fetches without [since_id] again. *)
Theorem C1_cursor_is_never_advanced :
  (forall (num : Type) (N : Number num) (World : Type)
          (ext : Collaborators num World) (s : state World)
          (iterations : nat) (interval : num),
      let o := pollMentions ext iterations interval s in
      lastProcessedMentionId (this (after o)) = lastProcessedMentionId (this s)
      /\ fetches (emitted o) = repeat (since_id (this s)) iterations) /\
  (let o := checkMentions scripted (start allUp) in
   map (fun c => c.2) (handlerCalls (emitted o)) = ["1001"; "1003"] /\
   lastProcessedMentionId (this (after o)) = None) /\
  fetches (emitted (pollMentions scripted 2 1200 (start allUp)))
  = [None; None].
Proof.
  split; [|split].
  - intros num HN World ext s iterations interval.
    destruct (pollMentions_run ext iterations interval s)
      as (_ & (_ & Hc & _) & Hfe).
    split; assumption.
  - vm_compute. split; reflexivity.
  - vm_compute. reflexivity.
Qed.

(** C4. The check [processedTweets.has] answers [false] (the handler goes
    on) for an identifier that is not in the set, as for every identifier
    at the start; it answers [true] (the handler skips) once the identifier
    has been added; adding an identifier twice gives the same agent as
    adding it once. *)
Theorem C4_dedup_check_and_mark :
  (forall (i : string) (a : agent),
      i ∉ processedTweets a -> has_processed i a = false) /\
  (forall i : string, has_processed i initial = false) /\
  (forall (i : string) (a : agent),
      has_processed i (add_processed i a) = true) /\
  (forall (i : string) (a : agent),
      add_processed i (add_processed i a) = add_processed i a).
Proof.
  split; [|split; [|split]].
  - intros i a Hnin. by apply has_processed_false.
  - intros i. apply has_processed_false. simpl. set_solver.
  - intros i a. apply has_processed_true. simpl. set_solver.
  - intros i a. unfold add_processed. simpl. f_equal. set_solver.
Qed.

Lemma C4_dedup_check_and_mark_witness :
  has_processed "1001" (add_processed "1003" initial) = false.
Proof.
  apply (proj1 C4_dedup_check_and_mark "1001" (add_processed "1003" initial)).
  simpl. set_solver.
Defined.

(** C5. A cycle never throws to its caller. When the fetch throws, the cycle
    logs the error and leaves the agent ([processedTweets] and the cursor)
    as it was. When the fetch answers a batch, the handler is called for
    every tweet to dispatch, in order, whatever the language model and the
    reply sink do for the tweets before it. The loop of [pollMentions] runs
    every one of its iterations. *)
Theorem C5_failures_do_not_stop_the_poller :
  forall (num : Type) (N : Number num) (World : Type)
         (ext : Collaborators num World) (s : state World),
    value (checkMentions ext s) = Ok tt /\
    (forall e w,
        v2_userMentionTimeline ext (since_id (this s)) (world s)
        = (Throw e, w) ->
        this (after (checkMentions ext s)) = this s /\
        emitted (checkMentions ext s)
        = [ UserMentionTimeline (since_id (this s)) (Throw e);
            ConsoleError "Error checking mentions:" e ]) /\
    (forall mentions tweets w,
        v2_userMentionTimeline ext (since_id (this s)) (world s)
        = (Ok (Some mentions), w) ->
        Timeline.tweets mentions = Some tweets ->
        handlerCalls (emitted (checkMentions ext s))
        = dispatched mentions tweets) /\
    (forall (iterations : nat) (interval : num),
        value (pollMentions ext iterations interval s) = Ok tt /\
        length (fetches (emitted (pollMentions ext iterations interval s)))
        = iterations).
Proof.
  intros num HN World ext s. split; [|split; [|split]].
  - apply checkMentions_run.
  - intros e w Hf. rewrite (checkMentions_fetch_throws ext s e w Hf).
    split; reflexivity.
  - intros mentions tweets w Hf Ht.
    exact (checkMentions_dispatch ext s mentions tweets w Hf Ht).
  - intros iterations interval.
    destruct (pollMentions_run ext iterations interval s) as (Hv & _ & Hfe).
    split; [exact Hv|]. rewrite Hfe. apply repeat_length.
Qed.

(** C5 at work: the timeline rejects, the agent is unchanged; the language
    model is down, both tweets of the page are still handed over. *)
Lemma C5_failures_do_not_stop_the_poller_witness :
  (this (after (checkMentions scripted (start timelineDown))) = initial /\
   emitted (checkMentions scripted (start timelineDown))
   = [ UserMentionTimeline None (Throw (Error "401 Unauthorized"));
       ConsoleError "Error checking mentions:" (Error "401 Unauthorized") ]) /\
  handlerCalls (emitted (checkMentions scripted (start generatorDown)))
  = [ ("@agent gm", "alice", "1001");
      ("@agent what is Base?", "bob", "1003") ].
Proof.
  split.
  - apply (proj1 (proj2 (C5_failures_do_not_stop_the_poller
                           Q Number_Q Script scripted (start timelineDown)))
             (Error "401 Unauthorized")
             {| draws := []; generations := []; tweetResults := [];
                replyResults := []; timelines := [] |}).
    reflexivity.
  - apply (proj1 (proj2 (proj2 (C5_failures_do_not_stop_the_poller
                                  Q Number_Q Script scripted (start generatorDown))))
             page [mention1; mention2; mention3]
             {| draws := []; generations := []; tweetResults := [];
                replyResults := []; timelines := [Ok (Some page)] |});
      reflexivity.
Defined.
(** C7, as the specification words it: of three tweets where the second is
    a retweet and the others are not, exactly the first and the third are
    handed to the handler. It fails when the author of the first is not
    among [includes.users]: only the third is handed over. *)
Lemma C7_unresolved_author_is_not_dispatched :
  ~ (forall (World : Type) (ext : Collaborators Q World) (s : state World)
            mentions t1 t2 t3 w,
        v2_userMentionTimeline ext (since_id (this s)) (world s)
        = (Ok (Some mentions), w) ->
        Timeline.tweets mentions = Some [t1; t2; t3] ->
        isRetweet t1 = false -> isRetweet t2 = true -> isRetweet t3 = false ->
        map (fun c => c.2) (handlerCalls (emitted (checkMentions ext s)))
        = [Tweet.id t1; Tweet.id t3]).
Proof.
  intros Hclaim.
  specialize (Hclaim Script scripted (start aliceMissing) pageWithoutAlice
                mention1 mention2 mention3
                {| draws := [];
                   generations := [Ok "Base is an L2"; Ok "gm"];
                   tweetResults := [];
                   replyResults := [Ok "3001"; Ok "3002"];
                   timelines := [] |}
                eq_refl eq_refl eq_refl eq_refl eq_refl).
  vm_compute in Hclaim. discriminate Hclaim.
Qed.

(** C7, amended. A cycle that receives exactly three tweets, where the
    second is a retweet, the first and the third are not, and the authors
    of the first and the third are among [includes.users], calls the
    handler for the first and then for the third, and for nothing else. *)
Theorem C7_retweet_is_not_dispatched :
  forall (num : Type) (N : Number num) (World : Type)
         (ext : Collaborators num World) (s : state World)
         mentions t1 t2 t3 a1 a3 w,
    v2_userMentionTimeline ext (since_id (this s)) (world s)
    = (Ok (Some mentions), w) ->
    Timeline.tweets mentions = Some [t1; t2; t3] ->
    isRetweet t1 = false -> isRetweet t2 = true -> isRetweet t3 = false ->
    findAuthor mentions t1 = Some a1 -> findAuthor mentions t3 = Some a3 ->
    handlerCalls (emitted (checkMentions ext s))
    = [ (Tweet.text t1, User.username a1, Tweet.id t1);
        (Tweet.text t3, User.username a3, Tweet.id t3) ].
Proof.
  intros num HN World ext s mentions t1 t2 t3 a1 a3 w Hf Ht H1 H2 H3 Ha1 Ha3.
  rewrite (checkMentions_dispatch ext s mentions _ w Hf Ht).
  unfold dispatched. simpl. rewrite H1, H2, H3, Ha1, Ha3. reflexivity.
Qed.

Lemma C7_retweet_is_not_dispatched_witness :
  handlerCalls (emitted (checkMentions scripted (start allUp)))
  = [ ("@agent gm", "alice", "1001");
      ("@agent what is Base?", "bob", "1003") ].
Proof.
  apply (C7_retweet_is_not_dispatched Q Number_Q Script scripted (start allUp)
           page mention1 mention2 mention3 alice bob
           {| draws := [1 # 2];
              generations :=
                [Ok "gm alice"; Ok "Base is an L2"; Ok "gm"; Ok "again"];
              tweetResults := [Ok "2001"];
              replyResults := [Ok "3001"; Ok "3002"; Ok "3003"; Ok "3004"];
              timelines := [Ok (Some page)] |});
    reflexivity.
Defined.


(** The language model is down: the handling of tweet 1001, event by event,
    and the set it leaves. *)
Example generatorDown_handleTweet :
  let o := handleTweet scripted "@agent gm" "alice" "1001"
             (start generatorDown) in
  emitted o
  = [ EnterHandleTweet "@agent gm" "alice" "1001";
      ConsoleLog "Processing tweet 1001 from @alice: @agent gm";
      GenerateContent (reply_prompt "@agent gm" "alice")
                      (Throw (Error "503 Service Unavailable"));
      ConsoleError "Error handling tweet:"
                   (Error "503 Service Unavailable") ] /\
  elements (processedTweets (this (after o))) = ["1001"].
Proof. split; vm_compute; reflexivity. Qed.


(** C10. A fetched tweet that is not a retweet and whose [author_id] is the
    [id] of no user of [includes.users] is passed over in silence: its step
    of the loop emits nothing (no call of the handler, no log, no timer)
    and changes nothing (its identifier is not added to [processedTweets]),
    so the cycle goes as if the tweet were not in the batch. *)
Theorem C10_unknown_author_is_skipped_silently :
  forall (num : Type) (N : Number num) (World : Type)
         (ext : Collaborators num World) (s : state World)
         (mentions : Timeline.t) (tweet : Tweet.t),
    isRetweet tweet = false ->
    (forall users user,
        Timeline.includes_users mentions = Some users -> In user users ->
        Tweet.author_id tweet <> Some (User.id user)) ->
    mentionStep ext mentions tweet s
    = {| value := Ok tt; after := s; emitted := [] |} /\
    dispatched mentions [tweet] = [] /\
    (forall before rest s0,
        for_of (before ++ tweet :: rest) (mentionStep ext mentions) s0
        = for_of (before ++ rest) (mentionStep ext mentions) s0).
Proof.
  intros num HN World ext s mentions tweet Hrt Hunknown.
  assert (Hnone : findAuthor mentions tweet = None).
  { unfold findAuthor.
    destruct (Timeline.includes_users mentions) as [users|] eqn:Hu; [|done].
    destruct (find _ users) as [user|] eqn:Hfind; [exfalso|done].
    apply find_some in Hfind as [Hin Heq].
    destruct (Tweet.author_id tweet) as [a|] eqn:Ha; [|done].
    apply String.eqb_eq in Heq. apply (Hunknown users user eq_refl Hin).
    by rewrite Heq. }
  assert (Hstep : forall s1,
             mentionStep ext mentions tweet s1
             = {| value := Ok tt; after := s1; emitted := [] |}).
  { intros s1. unfold mentionStep. rewrite Hrt, Hnone. reflexivity. }
  split; [apply Hstep|]. split.
  - unfold dispatched. simpl. by rewrite Hrt, Hnone.
  - intros before rest s0. rewrite !for_of_app. simpl. unfold bind.
    destruct (for_of before (mentionStep ext mentions) s0)
      as [[[]|e] s1 evs1]; [|reflexivity].
    rewrite Hstep.
    by destruct (for_of rest (mentionStep ext mentions) s1).
Qed.

Lemma author_of_mention1_unknown :
  forall users user,
    Timeline.includes_users pageWithoutAlice = Some users -> In user users ->
    Tweet.author_id mention1 <> Some (User.id user).
Proof.
  intros users user Hu Hin Ha. injection Hu as <-.
  destruct Hin as [<-|[]]. discriminate Ha.
Qed.

(** C10 at work: the first tweet of [pageWithoutAlice]. *)
Lemma C10_unknown_author_is_skipped_silently_witness :
  mentionStep scripted pageWithoutAlice mention1 (start aliceMissing)
  = {| value := Ok tt; after := start aliceMissing; emitted := [] |}.
Proof.
  apply (proj1 (C10_unknown_author_is_skipped_silently
                  Q Number_Q Script scripted (start aliceMissing)
                  pageWithoutAlice mention1 eq_refl
                  author_of_mention1_unknown)).
Defined.
End PollerClaims.

(** ** The autonomous poster *)

Section StringFacts.
Lemma truthy_false s : truthy s = false <-> s = "".
Proof. destruct s; split; intros Heq; done. Qed.

Lemma truthy_true s : truthy s = true <-> s <> "".
Proof. destruct s; split; intros Hne; done. Qed.

Lemma trim_empty : trim "" = "".
Proof. reflexivity. Qed.

(** The condition of line 238, [response && response.trim()], holds exactly
    when the trimmed response is not empty. *)
Lemma publish_condition response :
  truthy response && truthy (trim response) = truthy (trim response).
Proof. destruct response; reflexivity. Qed.
End StringFacts.

Section PosterClaims.
Local Open Scope Q_scope.

Ltac run_iteration ext s :=
  unfold autonomousIteration, selectAndGenerate, generateAutonomousAction,
    callLLM, try_catch, bind, random, get, call, sleep, console_log,
    console_error, emit, throw, ret;
  destruct (Math_random ext (world s)) as [r w0];
  destruct (select weightedPrompts _) as [thought|e0]; cbn;
  [ destruct (model (this s)); cbn;
    [ destruct (generateContent ext _ w0) as [[response|e1] w1]; cbn;
      [ rewrite publish_condition;
        destruct (truthy (trim response)) eqn:Htrim; cbn;
        [ destruct (v2_tweet ext response w1) as [[id|e2] w2]; cbn | ]
      | ]
    | ]
  | ].

(** An iteration never throws, awaits exactly one timer and leaves the
    agent as it was. *)
Lemma autonomousIteration_run {num : Type} `{Number num} {World : Type}
      (ext : Collaborators num World) (interval : num) (s : state World) :
  let o := autonomousIteration ext interval s in
  value o = Ok tt /\ this (after o) = this s /\
  length (sleeps (emitted o)) = 1%nat.
Proof.
  run_iteration ext s. all: by repeat split.
Qed.

(** The loop of [runAutonomousMode] never stops on an error: it runs every
    one of its iterations, each ending in one sleep. *)
Lemma runAutonomousMode_run {num : Type} `{Number num} {World : Type}
      (ext : Collaborators num World) (iterations : nat) (interval : num)
      (s : state World) :
  let o := runAutonomousMode ext iterations interval s in
  value o = Ok tt /\ this (after o) = this s /\
  length (sleeps (emitted o)) = iterations.
Proof.
  revert s. induction iterations as [|n IH]; intros s; simpl.
  - by repeat split.
  - destruct (autonomousIteration_run ext interval s) as (Hv & Ha & Hs).
    rewrite (bind_Ok _ _ _ _ Hv). simpl.
    destruct (IH (after (autonomousIteration ext interval s)))
      as (Hv' & Ha' & Hs').
    split; [exact Hv'|]. split; [congruence|].
    unfold sleeps in *. rewrite flat_map_app, length_app, Hs, Hs'.
    reflexivity.
Qed.

(** The publish sink rejects: the whole iteration, event by event. *)
Example publishDown_iteration :
  emitted (autonomousIteration scripted 3600 (start publishDown))
  = [ MathRandom (1 # 2);
      GenerateContent
        (tweet_prompt "Start a discussion about the future of DeFi or NFTs")
        (Ok "gm Base builders");
      ConsoleLog "Generated tweet: gm Base builders";
      V2Tweet "gm Base builders" (Throw (Error "429 Too Many Requests"));
      ConsoleError "Error sending tweet:" (Error "429 Too Many Requests");
      SetTimeout (3600000 # 1) ].
Proof. vm_compute. reflexivity. Qed.

(** C3, as the specification words it, for the publishing step: an
    iteration in which publishing throws would sleep the 60 seconds. It
    sleeps the normal interval: the error is caught next to the call. *)
Lemma C3_publish_error_keeps_the_normal_interval :
  ~ (forall (World : Type) (ext : Collaborators Q World) (interval : Q)
            (s : state World) t e,
        In (V2Tweet t (Throw e)) (emitted (autonomousIteration ext interval s))
        -> sleeps (emitted (autonomousIteration ext interval s))
           = [seconds 60]).
Proof.
  intros Hclaim.
  specialize (Hclaim Script scripted 3600 (start publishDown)
                "gm Base builders" (Error "429 Too Many Requests")).
  vm_compute in Hclaim.
  assert (Hsleep : [3600000 # 1] = [60000 # 1]).
  { apply Hclaim. do 3 right. left. reflexivity. }
  discriminate Hsleep.
Qed.

(** C3, amended. An iteration never throws. When topic selection or
    generation throws, the loop logs the error and sleeps 60 seconds. When
    they return, it sleeps the normal interval; this includes the
    iterations in which publishing throws, whose error is caught and logged
    next to the call. *)
Theorem C3_recovery_interval_after_generation_error :
  forall (num : Type) (N : Number num) (World : Type)
         (ext : Collaborators num World) (interval : num) (s : state World),
    let o := autonomousIteration ext interval s in
    value o = Ok tt /\
    (forall e, value (selectAndGenerate ext s) = Throw e ->
               sleeps (emitted o) = [seconds (num_of_Z 60)] /\
               In (ConsoleError "Error in autonomous mode:" e) (emitted o)) /\
    (forall response, value (selectAndGenerate ext s) = Ok response ->
                      sleeps (emitted o) = [seconds interval]) /\
    (forall p e, In (GenerateContent p (Throw e)) (emitted o) ->
                 sleeps (emitted o) = [seconds (num_of_Z 60)]) /\
    (forall t e, In (V2Tweet t (Throw e)) (emitted o) ->
                 sleeps (emitted o) = [seconds interval] /\
                 In (ConsoleError "Error sending tweet:" e) (emitted o)).
Proof.
  intros num HN World ext interval s o. subst o.
  run_iteration ext s.
  all: simpl; naive_solver.
Qed.
(** C3 at work: the language model rejects, the loop sleeps 60 seconds. *)
Lemma C3_recovery_interval_after_generation_error_witness :
  sleeps (emitted (autonomousIteration scripted 3600 (start generatorDown)))
  = [seconds 60].
Proof.
  apply (proj1 (proj1 (proj2 (C3_recovery_interval_after_generation_error
                                Q Number_Q Script scripted 3600
                                (start generatorDown)))
                  (Error "503 Service Unavailable")
                  ltac:(vm_compute; reflexivity))).
Defined.

(** C8. In an iteration where the language model returns a response, the
    publish sink [v2.tweet] is not called when the response is empty after
    trimming, and is called once, with the response, when it is not. The
    sink is not called either when selection or generation throws. *)
Theorem C8_publish_only_nonblank :
  forall (num : Type) (N : Number num) (World : Type)
         (ext : Collaborators num World) (interval : num) (s : state World),
    let o := autonomousIteration ext interval s in
    (forall p response,
        In (GenerateContent p (Ok response)) (emitted o) ->
        (trim response = "" -> tweetCalls (emitted o) = []) /\
        (trim response <> "" -> tweetCalls (emitted o) = [response])) /\
    (forall response,
        value (selectAndGenerate ext s) = Ok response ->
        (trim response = "" -> tweetCalls (emitted o) = []) /\
        (trim response <> "" -> tweetCalls (emitted o) = [response])) /\
    (forall e, value (selectAndGenerate ext s) = Throw e ->
               tweetCalls (emitted o) = []).
Proof.
  intros num HN World ext interval s o. subst o.
  run_iteration ext s.
  all: try apply truthy_true in Htrim; try apply truthy_false in Htrim.
  all: simpl; naive_solver.
Qed.

(** C8 at work: the language model answers two spaces. *)
Lemma C8_publish_only_nonblank_witness :
  tweetCalls (emitted (autonomousIteration scripted 3600
                         (start blankGeneration))) = [].
Proof.
  apply (proj1 (proj1 (C8_publish_only_nonblank
                         Q Number_Q Script scripted 3600
                         (start blankGeneration))
                  (tweet_prompt
                     "Start a discussion about the future of DeFi or NFTs")
                  "  "
                  ltac:(vm_compute; right; left; reflexivity))).
  reflexivity.
Defined.
End PosterClaims.

(** * Further properties of the code *)

(** ** The poller answers a tweet at most once *)

Section RepliesOnce.
Context {num : Type} `{Number num} {World : Type}.
Variable ext : Collaborators num World.
Implicit Types (s : state World) (m : Method num World unit).

Lemma repliesTo_app tweetId (evs1 evs2 : list (event num)) :
  repliesTo tweetId (evs1 ++ evs2)
  = repliesTo tweetId evs1 ++ repliesTo tweetId evs2.
Proof. unfold repliesTo. apply flat_map_app. Qed.

Lemma repliesOnce_ret tweetId : repliesOnce tweetId (ret tt : Method num World unit).
Proof.
  intros s. simpl. repeat split; try done. lia.
Qed.

Lemma repliesOnce_sleep tweetId ms : repliesOnce tweetId (sleep ext ms).
Proof.
  intros s. simpl. repeat split; try done. lia.
Qed.

Lemma repliesOnce_bind tweetId m1 m2 :
  repliesOnce tweetId m1 -> repliesOnce tweetId m2 ->
  repliesOnce tweetId (bind m1 (fun _ => m2)).
Proof.
  intros H1 H2 s.
  destruct (H1 s) as (Hv1 & Hst1 & Hle1 & Hno1 & Hin1).
  rewrite (bind_Ok _ _ _ _ Hv1). simpl.
  destruct (H2 (after (m1 s))) as (Hv2 & Hst2 & Hle2 & Hno2 & Hin2).
  rewrite repliesTo_app.
  split; [exact Hv2|]. split; [exact (steady_trans _ _ _ Hst1 Hst2)|].
  destruct (repliesTo tweetId (emitted (m1 s))) as [|e1 evs1] eqn:E1.
  - simpl. split; [exact Hle2|]. split.
    + intros Hin. apply Hno2. destruct Hst1 as (_ & _ & Hsub).
      apply Hsub, Hin.
    + exact Hin2.
  - assert (Hafter1 : tweetId ∈ processedTweets (this (after (m1 s))))
      by (apply Hin1; discriminate).
    rewrite (Hno2 Hafter1), app_nil_r. split; [exact Hle1|]. split.
    + intros Hin. specialize (Hno1 Hin). discriminate Hno1.
    + intros _. destruct Hst2 as (_ & _ & Hsub). apply Hsub, Hafter1.
Qed.

Lemma repliesOnce_handleTweet tweetId tweetText authorUsername target :
  repliesOnce tweetId (handleTweet ext tweetText authorUsername target).
Proof.
  intros s.
  split; [apply handleTweet_run|]. split; [apply handleTweet_steady|].
  destruct (decide (target ∈ processedTweets (this s))) as [Hin|Hnin].
  - rewrite (handleTweet_skip ext _ _ _ _ Hin). simpl.
    repeat split; try done. lia.
  - apply has_processed_false in Hnin.
    unfold handleTweet, callLLM, bind, try_catch, get, emit, modify,
      console_log, console_error, call, ret, throw.
    simpl. rewrite Hnin.
    destruct (model (this s)); simpl;
      [|repeat split; try done; lia].
    destruct (generateContent ext _ (world s)) as [[response|e] w]; simpl;
      [|repeat split; try done; lia].
    destruct (truthy response && truthy (trim response)); simpl;
      [|repeat split; try done; lia].
    apply has_processed_false in Hnin.
    destruct (v2_reply ext response target w) as [[id|e] w']; simpl;
      destruct (String.eqb_spec target tweetId) as [->|Hne]; simpl;
      repeat split; try done; try lia; try set_solver.
Qed.

Lemma repliesOnce_mentionStep tweetId mentions tweet :
  repliesOnce tweetId (mentionStep ext mentions tweet).
Proof.
  unfold mentionStep. destruct (isRetweet tweet); [apply repliesOnce_ret|].
  destruct (findAuthor mentions tweet); [|apply repliesOnce_ret].
  apply repliesOnce_bind;
    [apply repliesOnce_handleTweet | apply repliesOnce_sleep].
Qed.

Lemma repliesOnce_for_of tweetId mentions tweets :
  repliesOnce tweetId (for_of tweets (mentionStep ext mentions)).
Proof.
  induction tweets as [|tweet tweets IH]; simpl.
  - apply repliesOnce_ret.
  - apply repliesOnce_bind; [apply repliesOnce_mentionStep | exact IH].
Qed.

Lemma repliesOnce_checkMentions tweetId : repliesOnce tweetId (checkMentions ext).
Proof.
  intros s.
  destruct (v2_userMentionTimeline ext (since_id (this s)) (world s))
    as [[[mentions|]|e] w] eqn:Hf.
  - destruct (Timeline.tweets mentions) as [tweets|] eqn:Ht.
    + rewrite (checkMentions_batch ext s mentions tweets w Hf Ht). simpl.
      destruct (repliesOnce_for_of tweetId mentions tweets
                  {| this := this s; world := w |})
        as (_ & Hst & Hle & Hno & Hin).
      repeat split; try done; apply Hst.
    + unfold checkMentions, try_catch, bind, get, call, console_error, emit,
        ret. simpl. rewrite Hf, Ht. simpl. repeat split; try done. lia.
  - unfold checkMentions, try_catch, bind, get, call, console_error, emit,
      ret. simpl. rewrite Hf. simpl. repeat split; try done. lia.
  - rewrite (checkMentions_fetch_throws ext s e w Hf). simpl.
    repeat split; try done. lia.
Qed.

Lemma repliesOnce_pollLoop tweetId iterations interval :
  repliesOnce tweetId (pollLoop ext iterations interval).
Proof.
  induction iterations as [|n IH]; simpl.
  - apply repliesOnce_ret.
  - apply repliesOnce_bind; [apply repliesOnce_checkMentions|].
    apply repliesOnce_bind; [apply repliesOnce_sleep | exact IH].
Qed.
End RepliesOnce.

Section PollerExtras.
Context {num : Type} `{Number num} {World : Type}.
Variable ext : Collaborators num World.
Implicit Types (s : state World).

Lemma sleeps_app (evs1 evs2 : list (event num)) :
  sleeps (evs1 ++ evs2) = sleeps evs1 ++ sleeps evs2.
Proof. unfold sleeps. apply flat_map_app. Qed.

Lemma generatorOrReplyCalls_app (evs1 evs2 : list (event num)) :
  generatorOrReplyCalls (evs1 ++ evs2)
  = generatorOrReplyCalls evs1 ++ generatorOrReplyCalls evs2.
Proof. unfold generatorOrReplyCalls. apply flat_map_app. Qed.

Lemma dispatched_cons mentions tweet tweets :
  dispatched mentions (tweet :: tweets)
  = dispatched mentions [tweet] ++ dispatched mentions tweets.
Proof. unfold dispatched. simpl. by rewrite app_nil_r. Qed.

(** What one step of the loop leaves in [processedTweets] and how long it
    waits. *)
Lemma mentionStep_marks mentions tweet s :
  let o := mentionStep ext mentions tweet s in
  processedTweets (this (after o))
  = processedTweets (this s) ∪ list_to_set (dispatchedIds mentions [tweet]) /\
  sleeps (emitted o)
  = repeat (num_of_Z 1000) (length (dispatched mentions [tweet])).
Proof.
  unfold mentionStep, dispatchedIds, dispatched. simpl.
  destruct (isRetweet tweet); [simpl; split; [set_solver|done]|].
  destruct (findAuthor mentions tweet) as [author|];
    [|simpl; split; [set_solver|done]].
  destruct (handleTweet_run ext (Tweet.text tweet) (User.username author)
              (Tweet.id tweet) s) as (Hv & Hp & _ & _ & _ & Hsl & _).
  rewrite (bind_Ok _ _ _ _ Hv). simpl. rewrite Hp, sleeps_app, Hsl.
  split; [|reflexivity].
  rewrite union_empty_r_L. apply (comm_L (∪)).
Qed.

Lemma for_of_marks mentions tweets s :
  let o := for_of tweets (mentionStep ext mentions) s in
  processedTweets (this (after o))
  = processedTweets (this s) ∪ list_to_set (dispatchedIds mentions tweets) /\
  sleeps (emitted o)
  = repeat (num_of_Z 1000) (length (dispatched mentions tweets)).
Proof.
  revert s. induction tweets as [|tweet tweets IH]; intros s.
  - simpl. split; [set_solver|done].
  - cbn [for_of].
    destruct (mentionStep_run ext mentions tweet s) as (Hv & _).
    rewrite (bind_Ok _ _ _ _ Hv). cbn [after emitted].
    destruct (mentionStep_marks mentions tweet s) as (Hp & Hsl).
    destruct (IH (after (mentionStep ext mentions tweet s))) as (Hp' & Hsl').
    rewrite Hp', Hp, sleeps_app, Hsl, Hsl'.
    unfold dispatchedIds. rewrite (dispatched_cons mentions tweet tweets).
    rewrite map_app, length_app, repeat_app, list_to_set_app_L.
    split; [by rewrite (assoc_L (∪))|reflexivity].
Qed.

(** A batch whose tweets to dispatch are all in [processedTweets] costs no
    call to the language model or to the reply sink, and changes nothing in
    the agent. *)
Lemma for_of_all_processed mentions tweets s :
  (forall id, In id (dispatchedIds mentions tweets) ->
              id ∈ processedTweets (this s)) ->
  let o := for_of tweets (mentionStep ext mentions) s in
  generatorOrReplyCalls (emitted o) = [] /\ this (after o) = this s.
Proof.
  revert s. induction tweets as [|tweet tweets IH]; intros s Hall.
  - by simpl.
  - simpl.
    assert (Hstep : generatorOrReplyCalls
                      (emitted (mentionStep ext mentions tweet s)) = [] /\
                    this (after (mentionStep ext mentions tweet s)) = this s).
    { unfold dispatchedIds in Hall.
      rewrite (dispatched_cons mentions tweet tweets), map_app in Hall.
      unfold mentionStep, dispatched in *. simpl in Hall.
      destruct (isRetweet tweet); [by simpl|].
      destruct (findAuthor mentions tweet) as [author|]; [|by simpl].
      assert (Hin : Tweet.id tweet ∈ processedTweets (this s))
        by (apply Hall; simpl; by left).
      rewrite (bind_Ok _ _ _ tt)
        by (by rewrite (handleTweet_skip ext _ _ _ _ Hin)).
      rewrite (handleTweet_skip ext _ _ _ _ Hin). by simpl. }
    destruct Hstep as (Hg & Ha).
    destruct (mentionStep_run ext mentions tweet s) as (Hv & _).
    rewrite (bind_Ok _ _ _ _ Hv). simpl.
    destruct (IH (after (mentionStep ext mentions tweet s))) as (Hg' & Ha').
    { intros id Hid. rewrite Ha. apply Hall. unfold dispatchedIds in *.
      rewrite (dispatched_cons mentions tweet tweets), map_app.
      apply in_or_app. by right. }
    rewrite generatorOrReplyCalls_app, Hg, Hg'. split; [done|congruence].
Qed.
End PollerExtras.

Section PollerExtraTheorems.

(** X1. Over any number of poll cycles the agent replies to a given tweet
    at most once, and never to a tweet whose identifier is already in
    [processedTweets], whatever the timeline returns and however often it
    returns the same tweet. *)
Theorem X1_no_tweet_is_answered_twice :
  forall (num : Type) (N : Number num) (World : Type)
         (ext : Collaborators num World) (s : state World)
         (iterations : nat) (interval : num) (tweetId : string),
    let o := pollMentions ext iterations interval s in
    (length (repliesTo tweetId (emitted o)) <= 1)%nat /\
    (tweetId ∈ processedTweets (this s) -> repliesTo tweetId (emitted o) = []).
Proof.
  intros num N World ext s iterations interval tweetId. unfold pollMentions.
  rewrite (bind_Ok _ _ _ tt) by reflexivity. simpl.
  destruct (repliesOnce_pollLoop ext tweetId iterations interval s)
    as (_ & _ & Hle & Hno & _).
  split; assumption.
Qed.

(** X1 at work: two cycles fetch the same page; the two tweets handed to
    the handler are answered once each. *)
Lemma X1_no_tweet_is_answered_twice_witness :
  replyCalls (emitted (pollMentions scripted 2 1200%Q (start allUp)))
  = [ ("gm alice", "1001"); ("Base is an L2", "1003") ] /\
  (length (repliesTo "1001"
             (emitted (pollMentions scripted 2 1200%Q (start allUp)))) <= 1)%nat.
Proof.
  split.
  - vm_compute. reflexivity.
  - apply (proj1 (X1_no_tweet_is_answered_twice
                    Q Number_Q Script scripted (start allUp) 2 1200%Q "1001")).
Defined.

(** X2. After a cycle whose fetch returned a batch, [processedTweets] is
    what it was plus the identifiers of the tweets handed to the handler:
    the tweets that are not retweets and whose author is in
    [includes.users]. Nothing is removed, and the identifier of a tweet
    that was passed over is not added. *)
Theorem X2_cycle_marks_exactly_the_dispatched :
  forall (num : Type) (N : Number num) (World : Type)
         (ext : Collaborators num World) (s : state World)
         mentions tweets w,
    v2_userMentionTimeline ext (since_id (this s)) (world s)
    = (Ok (Some mentions), w) ->
    Timeline.tweets mentions = Some tweets ->
    processedTweets (this (after (checkMentions ext s)))
    = processedTweets (this s) ∪ list_to_set (dispatchedIds mentions tweets).
Proof.
  intros num N World ext s mentions tweets w Hf Ht.
  rewrite (checkMentions_batch ext s mentions tweets w Hf Ht). simpl.
  apply (for_of_marks ext mentions tweets {| this := this s; world := w |}).
Qed.

Lemma X2_cycle_marks_exactly_the_dispatched_witness :
  processedTweets (this (after (checkMentions scripted (start aliceMissing))))
  = processedTweets initial
    ∪ list_to_set (dispatchedIds pageWithoutAlice
                     [mention1; mention2; mention3]).
Proof.
  apply (X2_cycle_marks_exactly_the_dispatched
           Q Number_Q Script scripted (start aliceMissing) pageWithoutAlice
           [mention1; mention2; mention3]
           {| draws := [];
              generations := [Ok "Base is an L2"; Ok "gm"];
              tweetResults := [];
              replyResults := [Ok "3001"; Ok "3002"];
              timelines := [] |});
    reflexivity.
Defined.

(** X3. A cycle awaits one timer of 1000 ms after every call of the
    handler, and no other timer: as many as there are tweets to dispatch
    in the batch, also for the tweets that the handler skips because they
    were processed before. *)
Theorem X3_one_delay_per_handler_call :
  forall (num : Type) (N : Number num) (World : Type)
         (ext : Collaborators num World) (s : state World)
         mentions tweets w,
    v2_userMentionTimeline ext (since_id (this s)) (world s)
    = (Ok (Some mentions), w) ->
    Timeline.tweets mentions = Some tweets ->
    sleeps (emitted (checkMentions ext s))
    = repeat (num_of_Z 1000) (length (dispatched mentions tweets)).
Proof.
  intros num N World ext s mentions tweets w Hf Ht.
  rewrite (checkMentions_batch ext s mentions tweets w Hf Ht). simpl.
  apply (for_of_marks ext mentions tweets {| this := this s; world := w |}).
Qed.

(** X3 at work: the second cycle over [page] skips both tweets and still
    waits twice. *)
Lemma X3_one_delay_per_handler_call_witness :
  sleeps (emitted (checkMentions scripted
                     (after (checkMentions scripted (start allUp)))))
  = [inject_Z 1000; inject_Z 1000].
Proof.
  apply (X3_one_delay_per_handler_call
           Q Number_Q Script scripted
           (after (checkMentions scripted (start allUp))) page
           [mention1; mention2; mention3]
           {| draws := [(1 # 2)%Q];
              generations := [Ok "gm"; Ok "again"];
              tweetResults := [Ok "2001"];
              replyResults := [Ok "3003"; Ok "3004"];
              timelines := [] |});
    reflexivity.
Defined.

(** X4. A cycle whose fetch returns only tweets already in
    [processedTweets] (as happens when the same page is fetched again)
    calls the handler for each of them, but neither the language model nor
    the reply sink, and leaves the agent as it was. *)
Theorem X4_refetched_batch_costs_no_generation :
  forall (num : Type) (N : Number num) (World : Type)
         (ext : Collaborators num World) (s : state World)
         mentions tweets w,
    v2_userMentionTimeline ext (since_id (this s)) (world s)
    = (Ok (Some mentions), w) ->
    Timeline.tweets mentions = Some tweets ->
    (forall id, In id (dispatchedIds mentions tweets) ->
                id ∈ processedTweets (this s)) ->
    generatorOrReplyCalls (emitted (checkMentions ext s)) = [] /\
    this (after (checkMentions ext s)) = this s /\
    handlerCalls (emitted (checkMentions ext s)) = dispatched mentions tweets.
Proof.
  intros num N World ext s mentions tweets w Hf Ht Hall.
  split; [|split].
  - rewrite (checkMentions_batch ext s mentions tweets w Hf Ht). simpl.
    apply (for_of_all_processed ext mentions tweets
             {| this := this s; world := w |} Hall).
  - rewrite (checkMentions_batch ext s mentions tweets w Hf Ht). simpl.
    apply (for_of_all_processed ext mentions tweets
             {| this := this s; world := w |} Hall).
  - exact (checkMentions_dispatch ext s mentions tweets w Hf Ht).
Qed.

Lemma page_processed_after_first_cycle :
  forall id, In id (dispatchedIds page [mention1; mention2; mention3]) ->
             id ∈ processedTweets
                    (this (after (checkMentions scripted (start allUp)))).
Proof.
  intros id [<-|[<-|[]]]; apply (bool_decide_unpack _); vm_compute; exact I.
Qed.

(** X4 at work: the second cycle over [page]. *)
Lemma X4_refetched_batch_costs_no_generation_witness :
  generatorOrReplyCalls
    (emitted (checkMentions scripted
                (after (checkMentions scripted (start allUp))))) = [].
Proof.
  apply (proj1 (X4_refetched_batch_costs_no_generation
                  Q Number_Q Script scripted
                  (after (checkMentions scripted (start allUp))) page
                  [mention1; mention2; mention3]
                  {| draws := [(1 # 2)%Q];
                     generations := [Ok "gm"; Ok "again"];
                     tweetResults := [Ok "2001"];
                     replyResults := [Ok "3003"; Ok "3004"];
                     timelines := [] |}
                  eq_refl eq_refl page_processed_after_first_cycle)).
Defined.
End PollerExtraTheorems.

(** ** The handler and the poster: what is published *)

Section TrimFacts.
Lemma trimEnd_cons_not_blank c s :
  isWhiteSpace c = false -> trimEnd (String c s) <> "".
Proof.
  intros Hc. simpl. destruct (trimEnd s); [by rewrite Hc|done].
Qed.

Lemma trimEnd_blank s : trimEnd s = "" <-> blank s = true.
Proof.
  unfold blank. induction s as [|c s IH]; simpl; [done|].
  destruct (isWhiteSpace c) eqn:Hc; simpl.
  - rewrite <- IH. destruct (trimEnd s); [done|]. split; discriminate.
  - split; [|discriminate]. destruct (trimEnd s); discriminate.
Qed.

(** [trim] leaves nothing exactly of the strings made of white space. *)
Lemma trim_blank s : trim s = "" <-> blank s = true.
Proof.
  unfold trim, blank. induction s as [|c s IH]; simpl; [done|].
  destruct (isWhiteSpace c) eqn:Hc; simpl; [exact IH|].
  split; [|discriminate]. intros Heq.
  by apply (trimEnd_cons_not_blank c s Hc) in Heq.
Qed.
End TrimFacts.

Section PublishingExtras.

Ltac run_handler ext s :=
  unfold handleTweet, callLLM, try_catch, bind, get, call, modify,
    console_log, console_error, emit, throw, ret;
  cbn;
  destruct (has_processed _ (this s)) eqn:Hhas; cbn;
  [ | destruct (model (this s)) eqn:Hmodel; cbn;
      [ destruct (generateContent ext _ (world s)) as [[response|e1] w1]; cbn;
        [ rewrite publish_condition;
          destruct (truthy (trim response)) eqn:Htrim; cbn;
          [ destruct (v2_reply ext response _ w1) as [[id|e2] w2]; cbn | ]
        | ]
      | ] ].

Ltac run_poster ext s :=
  unfold autonomousIteration, selectAndGenerate, generateAutonomousAction,
    callLLM, try_catch, bind, random, get, call, sleep, console_log,
    console_error, emit, throw, ret;
  destruct (Math_random ext (world s)) as [r w0];
  destruct (select weightedPrompts _) as [thought|e0]; cbn;
  [ destruct (model (this s)) eqn:Hmodel; cbn;
    [ destruct (generateContent ext _ w0) as [[response|e1] w1]; cbn;
      [ rewrite publish_condition;
        destruct (truthy (trim response)) eqn:Htrim; cbn;
        [ destruct (v2_tweet ext response w1) as [[id|e2] w2]; cbn | ]
      | ]
    | ]
  | ].

(** X5. [handleTweet] asks the language model at most once, with the reply
    prompt built from the author and the text. It calls the reply sink
    exactly when the model returned a response that is not empty after
    trimming, once, with the untrimmed response and the identifier of the
    tweet. An error of the reply sink is logged and goes no further. *)
Theorem X5_reply_only_to_nonblank_response :
  forall (num : Type) (N : Number num) (World : Type)
         (ext : Collaborators num World) (s : state World)
         (tweetText authorUsername tweetId : string),
    let o := handleTweet ext tweetText authorUsername tweetId s in
    (forall p response,
        In (GenerateContent p (Ok response)) (emitted o) ->
        generations_of (emitted o) = [reply_prompt tweetText authorUsername]
        /\ (trim response = "" -> replyCalls (emitted o) = [])
        /\ (trim response <> "" ->
            replyCalls (emitted o) = [(response, tweetId)])) /\
    ((forall p response, ~ In (GenerateContent p (Ok response)) (emitted o)) ->
     replyCalls (emitted o) = []) /\
    (forall text target e,
        In (V2Reply text target (Throw e)) (emitted o) ->
        In (ConsoleError "Error sending reply:" e) (emitted o) /\
        value o = Ok tt).
Proof.
  intros num N World ext s tweetText authorUsername tweetId o. subst o.
  run_handler ext s.
  all: try apply truthy_true in Htrim; try apply truthy_false in Htrim.
  all: simpl; naive_solver.
Qed.

(** X5 at work: the model answers "gm alice" for tweet 1001. *)
Lemma X5_reply_only_to_nonblank_response_witness :
  replyCalls (emitted (handleTweet scripted "@agent gm" "alice" "1001"
                         (start allUp)))
  = [("gm alice", "1001")].
Proof.
  apply (proj2 (proj2 (proj1 (X5_reply_only_to_nonblank_response
                                Q Number_Q Script scripted (start allUp)
                                "@agent gm" "alice" "1001")
                         (reply_prompt "@agent gm" "alice") "gm alice"
                         ltac:(vm_compute; do 2 right; left; reflexivity)))).
  discriminate.
Defined.

(** X7. A response made of white space only (spaces, tabs, line breaks,
    no-break spaces, or nothing at all) is published by neither loop: the
    handler does not reply with it and the poster does not tweet it. Any
    other response is published as the model returned it, untrimmed. *)
Theorem X7_blank_response_is_not_published :
  forall (num : Type) (N : Number num) (World : Type)
         (ext : Collaborators num World) (s : state World)
         (tweetText authorUsername tweetId : string) (interval : num)
         (p response : string),
    (In (GenerateContent p (Ok response))
        (emitted (handleTweet ext tweetText authorUsername tweetId s)) ->
     replyCalls (emitted (handleTweet ext tweetText authorUsername tweetId s))
     = if blank response then [] else [(response, tweetId)]) /\
    (In (GenerateContent p (Ok response))
        (emitted (autonomousIteration ext interval s)) ->
     tweetCalls (emitted (autonomousIteration ext interval s))
     = if blank response then [] else [response]).
Proof.
  intros num N World ext s tweetText authorUsername tweetId interval p
         response0.
  destruct (blank response0) eqn:Hblank.
  - apply trim_blank in Hblank. split.
    + run_handler ext s.
      all: try apply truthy_true in Htrim; try apply truthy_false in Htrim.
      all: simpl; naive_solver.
    + run_poster ext s.
      all: try apply truthy_true in Htrim; try apply truthy_false in Htrim.
      all: simpl; naive_solver.
  - apply not_true_iff_false in Hblank. rewrite <- trim_blank in Hblank.
    split.
    + run_handler ext s.
      all: try apply truthy_true in Htrim; try apply truthy_false in Htrim.
      all: simpl; naive_solver.
    + run_poster ext s.
      all: try apply truthy_true in Htrim; try apply truthy_false in Htrim.
      all: simpl; naive_solver.
Qed.

(** X7 at work: the model answers two spaces to the poster. *)
Lemma X7_blank_response_is_not_published_witness :
  tweetCalls (emitted (autonomousIteration scripted 3600%Q
                         (start blankGeneration))) = [].
Proof.
  apply (proj2 (X7_blank_response_is_not_published
                  Q Number_Q Script scripted (start blankGeneration)
                  "" "" "" 3600%Q
                  (tweet_prompt
                     "Start a discussion about the future of DeFi or NFTs")
                  "  ")).
  vm_compute. right. left. reflexivity.
Defined.
End PublishingExtras.

(** ** Before [initialize] has set the model *)

Section Uninitialised.
Context {num : Type} `{Number num} {World : Type}.
Variable ext : Collaborators num World.
Implicit Types (s : state World) (m : Method num World unit).

Lemma tweetCalls_app (evs1 evs2 : list (event num)) :
  tweetCalls (evs1 ++ evs2) = tweetCalls evs1 ++ tweetCalls evs2.
Proof. unfold tweetCalls. apply flat_map_app. Qed.

Lemma inert_ret : inert (ret tt : Method num World unit).
Proof. intros s Hm. by simpl. Qed.

Lemma inert_sleep ms : inert (sleep ext ms).
Proof. intros s Hm. by simpl. Qed.

Lemma inert_bind m1 m2 : inert m1 -> inert m2 -> inert (bind m1 (fun _ => m2)).
Proof.
  intros H1 H2 s Hm. destruct (H1 s Hm) as (Hv1 & Hm1 & Hg1 & Ht1).
  rewrite (bind_Ok _ _ _ _ Hv1). simpl.
  destruct (H2 (after (m1 s)) Hm1) as (Hv2 & Hm2 & Hg2 & Ht2).
  by rewrite generatorOrReplyCalls_app, tweetCalls_app, Hg1, Hg2, Ht1, Ht2.
Qed.

Lemma inert_handleTweet tweetText authorUsername tweetId :
  inert (handleTweet ext tweetText authorUsername tweetId).
Proof.
  intros s Hm.
  unfold handleTweet, callLLM, bind, try_catch, get, emit, modify,
    console_log, console_error, call, ret, throw.
  simpl. destruct (has_processed tweetId (this s)); simpl; [done|].
  rewrite Hm. by simpl.
Qed.

Lemma inert_for_of mentions tweets :
  inert (for_of tweets (mentionStep ext mentions)).
Proof.
  induction tweets as [|tweet tweets IH]; simpl; [apply inert_ret|].
  apply inert_bind; [|exact IH]. unfold mentionStep.
  destruct (isRetweet tweet); [apply inert_ret|].
  destruct (findAuthor mentions tweet); [|apply inert_ret].
  apply inert_bind; [apply inert_handleTweet | apply inert_sleep].
Qed.

Lemma inert_checkMentions : inert (checkMentions ext).
Proof.
  intros s Hm.
  destruct (v2_userMentionTimeline ext (since_id (this s)) (world s))
    as [[[mentions|]|e] w] eqn:Hf.
  - destruct (Timeline.tweets mentions) as [tweets|] eqn:Ht.
    + rewrite (checkMentions_batch ext s mentions tweets w Hf Ht). simpl.
      destruct (inert_for_of mentions tweets
                  {| this := this s; world := w |} Hm) as (_ & Hm' & Hg & Hc).
      by repeat split.
    + unfold checkMentions, try_catch, bind, get, call, console_error, emit,
        ret. simpl. rewrite Hf, Ht. by simpl.
  - unfold checkMentions, try_catch, bind, get, call, console_error, emit,
      ret. simpl. rewrite Hf. by simpl.
  - rewrite (checkMentions_fetch_throws ext s e w Hf). by simpl.
Qed.

Lemma inert_pollLoop iterations interval :
  inert (pollLoop ext iterations interval).
Proof.
  induction iterations as [|n IH]; simpl; [apply inert_ret|].
  apply inert_bind; [apply inert_checkMentions|].
  apply inert_bind; [apply inert_sleep | exact IH].
Qed.

(** An iteration of the poster with the model unset: one draw, the error
    logged, 60 seconds of sleep. *)
Lemma autonomousIteration_uninitialised interval s :
  model (this s) = false ->
  let o := autonomousIteration ext interval s in
  value o = Ok tt /\ this (after o) = this s /\
  generations_of (emitted o) = [] /\ tweetCalls (emitted o) = [] /\
  sleeps (emitted o) = [seconds (num_of_Z 60)] /\
  In (ConsoleError "Error in autonomous mode:" (Error "LLM not initialized"))
     (emitted o).
Proof.
  intros Hm.
  unfold autonomousIteration, generateAutonomousAction, callLLM, try_catch,
    bind, random, get, call, sleep, console_log, console_error, emit, throw,
    ret.
  destruct (Math_random ext (world s)) as [r w0].
  destruct (select_nonempty
              (item "Share an interesting fact or insight about Base blockchain or Layer 2 solutions" 4)
              (tl weightedPrompts) (num_mul r (totalWeight weightedPrompts)))
    as [thought Hsel].
  change (item _ 4 :: tl weightedPrompts) with (@weightedPrompts num _)
    in Hsel.
  rewrite Hsel. cbn. rewrite Hm. cbn. repeat split; try done.
  right. left. reflexivity.
Qed.

(** An iteration tweets at most once, sleeps once, and leaves the agent as
    it was. *)
Lemma autonomousIteration_counts interval s :
  let o := autonomousIteration ext interval s in
  value o = Ok tt /\ this (after o) = this s /\
  length (sleeps (emitted o)) = 1%nat /\
  (length (tweetCalls (emitted o)) <= 1)%nat /\
  (length (generations_of (emitted o)) <= 1)%nat.
Proof.
  unfold autonomousIteration, generateAutonomousAction, callLLM, try_catch,
    bind, random, get, call, sleep, console_log, console_error, emit, throw,
    ret.
  destruct (Math_random ext (world s)) as [r w0].
  destruct (select weightedPrompts _) as [thought|e0]; cbn;
    [|repeat split; try done; lia].
  destruct (model (this s)); cbn; [|repeat split; try done; lia].
  destruct (generateContent ext _ w0) as [[response|e1] w1]; cbn;
    [|repeat split; try done; lia].
  destruct (truthy response && truthy (trim response)); cbn;
    [|repeat split; try done; lia].
  destruct (v2_tweet ext response w1) as [[id|e2] w2]; cbn;
    repeat split; try done; lia.
Qed.
End Uninitialised.

Section LoopExtras.

(** X6. While [this.model] is unset (before [initialize] has reached line
    59, or after it failed earlier), the poller, over any number of cycles,
    calls neither the language model nor the reply sink, and never
    throws; each tweet it hands to the handler is only marked and logged
    with the error "LLM not initialized". *)
Theorem X6_poller_without_model_answers_nothing :
  forall (num : Type) (N : Number num) (World : Type)
         (ext : Collaborators num World) (s : state World)
         (iterations : nat) (interval : num),
    model (this s) = false ->
    let o := pollMentions ext iterations interval s in
    value o = Ok tt /\ generatorOrReplyCalls (emitted o) = [] /\
    forall tweetText authorUsername tweetId,
      tweetId ∉ processedTweets (this s) ->
      handleTweet ext tweetText authorUsername tweetId s
      = {| value := Ok tt;
           after := {| this := add_processed tweetId (this s);
                       world := world s |};
           emitted :=
             [ EnterHandleTweet tweetText authorUsername tweetId;
               ConsoleLog ("Processing tweet " ++ tweetId ++ " from @"
                           ++ authorUsername ++ ": " ++ tweetText);
               ConsoleError "Error handling tweet:"
                            (Error "LLM not initialized") ] |}.
Proof.
  intros num N World ext s iterations interval Hm. simpl. split; [|split].
  - apply pollMentions_run.
  - unfold pollMentions. rewrite (bind_Ok _ _ _ tt) by reflexivity. simpl.
    apply (inert_pollLoop ext iterations interval s Hm).
  - intros tweetText authorUsername tweetId Hnin.
    apply has_processed_false in Hnin.
    unfold handleTweet, callLLM, bind, try_catch, get, emit, modify,
      console_log, console_error, call, ret, throw.
    simpl. rewrite Hnin. simpl. rewrite Hm. reflexivity.
Qed.

(** The agent as the constructor leaves it: the model is not set. *)
Lemma X6_poller_without_model_answers_nothing_witness :
  generatorOrReplyCalls
    (emitted (pollMentions scripted 2 1200%Q
                {| this := {| model := false; processedTweets := ∅;
                              lastProcessedMentionId := None |};
                   world := allUp |})) = [].
Proof.
  apply (proj1 (proj2 (X6_poller_without_model_answers_nothing
                         Q Number_Q Script scripted
                         {| this := {| model := false; processedTweets := ∅;
                                       lastProcessedMentionId := None |};
                            world := allUp |}
                         2 1200%Q eq_refl))).
Defined.

(** X8. The loop of [runAutonomousMode] is stopped by no failure of the
    random source, the language model or the publish sink: it runs every
    iteration, each with exactly one sleep, at most one call to the model
    and at most one tweet, and it never changes the agent (in particular
    [processedTweets]). *)
Theorem X8_poster_loop_survives_every_failure :
  forall (num : Type) (N : Number num) (World : Type)
         (ext : Collaborators num World) (s : state World)
         (iterations : nat) (interval : num),
    let o := runAutonomousMode ext iterations interval s in
    value o = Ok tt /\ this (after o) = this s /\
    length (sleeps (emitted o)) = iterations /\
    (length (tweetCalls (emitted o)) <= iterations)%nat /\
    (length (generations_of (emitted o)) <= iterations)%nat.
Proof.
  intros num N World ext s iterations interval. revert s.
  induction iterations as [|n IH]; intros s; simpl.
  - repeat split; try done.
  - destruct (autonomousIteration_counts ext interval s)
      as (Hv & Ha & Hs & Ht & Hg).
    rewrite (bind_Ok _ _ _ _ Hv). simpl.
    destruct (IH (after (autonomousIteration ext interval s)))
      as (Hv' & Ha' & Hs' & Ht' & Hg').
    split; [exact Hv'|]. split; [congruence|].
    unfold generations_of in *.
    rewrite sleeps_app, tweetCalls_app, flat_map_app, !length_app.
    repeat split; lia.
Qed.

(** X9. With [this.model] unset, the poster never calls the language model
    and never tweets: every iteration logs "LLM not initialized" and sleeps
    the 60 seconds of the recovery interval, whatever [interval] is. *)
Theorem X9_poster_without_model_retries_every_minute :
  forall (num : Type) (N : Number num) (World : Type)
         (ext : Collaborators num World) (s : state World)
         (iterations : nat) (interval : num),
    model (this s) = false ->
    let o := runAutonomousMode ext iterations interval s in
    generations_of (emitted o) = [] /\ tweetCalls (emitted o) = [] /\
    sleeps (emitted o) = repeat (seconds (num_of_Z 60)) iterations.
Proof.
  intros num N World ext s iterations interval. revert s.
  induction iterations as [|n IH]; intros s Hm; simpl.
  - by repeat split.
  - destruct (autonomousIteration_uninitialised ext interval s Hm)
      as (Hv & Ha & Hg & Ht & Hs & _).
    rewrite (bind_Ok _ _ _ _ Hv). simpl.
    destruct (IH (after (autonomousIteration ext interval s)))
      as (Hg' & Ht' & Hs'); [by rewrite Ha|].
    unfold generations_of in *.
    rewrite sleeps_app, tweetCalls_app, flat_map_app, Hg, Hg', Ht, Ht', Hs,
      Hs'.
    by repeat split.
Qed.

Lemma X9_poster_without_model_retries_every_minute_witness :
  sleeps (emitted (runAutonomousMode scripted 2 3600%Q
                     {| this := {| model := false; processedTweets := ∅;
                                   lastProcessedMentionId := None |};
                        world := allUp |}))
  = [seconds 60%Q; seconds 60%Q].
Proof.
  apply (proj2 (proj2 (X9_poster_without_model_retries_every_minute
                         Q Number_Q Script scripted
                         {| this := {| model := false; processedTweets := ∅;
                                       lastProcessedMentionId := None |};
                            world := allUp |}
                         2 3600%Q eq_refl))).
Defined.
End LoopExtras.

(** ** More on the weighted selector *)

Section SelectorExtraFacts.
Context {num : Type} `{Number num}.

(** Whatever the arithmetic, the selector answers with a prompt of the
    list. *)
Lemma select_In (opts : list (WeightedPrompt num)) (r : num) (p : string) :
  select opts r = Ok p -> In p (map prompt opts).
Proof.
  unfold select. destruct (walk opts r) as [p'|] eqn:Hw.
  - intros [= ->]. destruct (walk_Some opts r p Hw) as (k & o & Hk & <- & _).
    apply in_map. apply list_elem_of_In.
    by apply (list_elem_of_lookup_2 opts k).
  - destruct opts as [|o opts]; [discriminate|].
    intros [= <-]. by left.
Qed.
End SelectorExtraFacts.

Section SelectorExtraTheorems.

(** X12. [generateAutonomousAction] never throws: whatever the random
    source returns, in any arithmetic, it draws once, changes nothing in
    the agent and returns one of the prompts of the table. *)
Theorem X12_thought_is_a_prompt_of_the_table :
  forall (num : Type) (N : Number num) (World : Type)
         (ext : Collaborators num World) (s : state World),
  exists thought,
    generateAutonomousAction ext s
    = {| value := Ok thought;
         after := {| this := this s;
                     world := (Math_random ext (world s)).2 |};
         emitted := [MathRandom (Math_random ext (world s)).1] |} /\
    In thought (map prompt (@weightedPrompts num N)).
Proof.
  intros num N World ext s.
  unfold generateAutonomousAction, bind, random, ret, throw.
  destruct (Math_random ext (world s)) as [r w0]. simpl fst. simpl snd.
  destruct (select weightedPrompts (num_mul r (totalWeight weightedPrompts)))
    as [thought|e] eqn:Hsel.
  - exists thought. split; [reflexivity|].
    exact (select_In _ _ _ Hsel).
  - exfalso.
    destruct (select_nonempty
                (item "Share an interesting fact or insight about Base blockchain or Layer 2 solutions" 4)
                (tl weightedPrompts)
                (num_mul r (totalWeight weightedPrompts))) as [p Hp].
    change (item _ 4 :: tl weightedPrompts) with (@weightedPrompts num N)
      in Hp.
    congruence.
Qed.

End SelectorExtraTheorems.

(** ** The [send_tweet] tool *)

Section SplitFacts.
Implicit Types (s a b : string).
Local Open Scope string_scope.

Lemma split_not_nil sep s : split sep s <> [].
Proof.
  destruct s as [|c s]; simpl; [done|].
  destruct (Ascii.eqb c sep); [done|]. by destruct (split sep s).
Qed.

Lemma split_colonFree a : colonFree a = true -> split ":" a = [a].
Proof.
  unfold colonFree. induction a as [|c a IH]; simpl; [done|].
  intros [Hc Ha]%andb_prop. apply negb_true_iff in Hc. rewrite Hc.
  by rewrite (IH Ha).
Qed.

Lemma split_colon_app a b :
  colonFree a = true ->
  split ":" (a ++ String ":" b) = a :: split ":" b.
Proof.
  unfold colonFree. induction a as [|c a IH]; simpl; [done|].
  intros [Hc Ha]%andb_prop. apply negb_true_iff in Hc. rewrite Hc.
  by rewrite (IH Ha).
Qed.

Lemma prefix_REPLY s : String.prefix "REPLY:" ("REPLY:" ++ s) = true.
Proof. simpl. by destruct s. Qed.

Lemma prefix_app p s :
  String.prefix p s = true -> exists rest, s = p ++ rest.
Proof.
  revert s. induction p as [|a p IH]; intros s; [by exists s|].
  destruct s as [|b s]; simpl; [discriminate|].
  destruct (ascii_dec a b) as [->|]; [|discriminate].
  intros Hp. destruct (IH s Hp) as [rest ->]. by exists rest.
Qed.

(** After "REPLY:" there is always a second piece. *)
Lemma reply_target_defined input :
  String.prefix "REPLY:" input = true ->
  exists id, split_limit ":" 3 input !! 1%nat = Some id.
Proof.
  intros [rest ->]%prefix_app. unfold split_limit.
  change ("REPLY:" ++ rest) with ("REPLY" ++ String ":" rest).
  rewrite (split_colon_app "REPLY" rest eq_refl).
  pose proof (split_not_nil ":" rest) as Hne.
  destruct (split ":" rest) as [|piece pieces]; [done|]. by exists piece.
Qed.

(** Joining pieces with colons and splitting gives the pieces back. *)
Lemma split_join a b c :
  colonFree a = true -> colonFree b = true -> colonFree c = true ->
  split ":" (a ++ ":" ++ b ++ ":" ++ c) = [a; b; c].
Proof.
  intros Ha Hb Hc.
  change (":" ++ b ++ ":" ++ c) with (String ":" (b ++ String ":" c)).
  by rewrite (split_colon_app a _ Ha), (split_colon_app b _ Hb),
    (split_colonFree c Hc).
Qed.
End SplitFacts.

Section SendTweetExtras.
Context {World : Type}.
Variable client : TwitterClient World.

Lemma send_tweet_reply input w text replyToId :
  String.prefix "REPLY:" input = true ->
  split_limit ":" 3 input !! 1%nat = replyToId ->
  split_limit ":" 3 input !! 2%nat = text ->
  send_tweet client input w
  = toolOutcome "Tweet sent as reply: " (client_reply client text replyToId w).
Proof.
  intros Hp <- <-. unfold send_tweet, send_tweet_try, toolOutcome.
  rewrite Hp. by destruct (client_reply client _ _ w) as [[id|e] w'].
Qed.
End SendTweetExtras.

Section SendTweetTheorems.
Local Open Scope string_scope.

(** X14. Given ["REPLY:" ++ id ++ ":" ++ text] where neither [id] nor
    [text] holds a colon, the tool replies to [id] with [text]: it returns
    "Tweet sent as reply: " followed by the identifier of the reply, or
    logs the error of the client and throws "Failed to send tweet". *)
Theorem X14_reply_input_is_parsed :
  forall (World : Type) (client : TwitterClient World) (w : World)
         (id text : string),
    colonFree id = true -> colonFree text = true ->
    send_tweet client ("REPLY:" ++ id ++ ":" ++ text) w
    = toolOutcome "Tweet sent as reply: "
                  (client_reply client (Some text) (Some id) w).
Proof.
  intros World client w id text Hid Htext.
  apply send_tweet_reply; [apply prefix_REPLY| |].
  - unfold split_limit.
    change ("REPLY:" ++ id ++ ":" ++ text)
      with ("REPLY" ++ ":" ++ id ++ ":" ++ text).
    by rewrite (split_join "REPLY" id text eq_refl Hid Htext).
  - unfold split_limit.
    change ("REPLY:" ++ id ++ ":" ++ text)
      with ("REPLY" ++ ":" ++ id ++ ":" ++ text).
    by rewrite (split_join "REPLY" id text eq_refl Hid Htext).
Qed.

Lemma X14_reply_input_is_parsed_witness :
  send_tweet recordingClient "REPLY:1001:gm alice" []
  = {| returned := Ok "Tweet sent as reply: 2001";
       world_after := [CallReply (Some "gm alice") (Some "1001")];
       logged := [] |}.
Proof.
  apply (X14_reply_input_is_parsed (list clientCall) recordingClient []
           "1001" "gm alice" eq_refl eq_refl).
Defined.

(** X15. A colon in the text of a reply cuts it: of
    ["REPLY:" ++ id ++ ":" ++ text ++ ":" ++ rest] the tool sends [text]
    only, whatever [rest] is, because line 75 splits with the limit 3. *)
Theorem X15_reply_text_is_cut_at_a_colon :
  forall (World : Type) (client : TwitterClient World) (w : World)
         (id text rest : string),
    colonFree id = true -> colonFree text = true ->
    send_tweet client ("REPLY:" ++ id ++ ":" ++ text ++ ":" ++ rest) w
    = toolOutcome "Tweet sent as reply: "
                  (client_reply client (Some text) (Some id) w).
Proof.
  intros World client w id text rest Hid Htext.
  assert (Hsplit : split_limit ":" 3
                     ("REPLY:" ++ id ++ ":" ++ text ++ ":" ++ rest)
                   = ["REPLY"; id; text]).
  { unfold split_limit.
    change ("REPLY:" ++ id ++ ":" ++ text ++ ":" ++ rest)
      with ("REPLY" ++ String ":" (id ++ String ":" (text ++ String ":" rest))).
    rewrite (split_colon_app "REPLY" _ eq_refl), (split_colon_app id _ Hid),
      (split_colon_app text _ Htext).
    reflexivity. }
  apply send_tweet_reply; [apply prefix_REPLY| |]; by rewrite Hsplit.
Qed.

Lemma X15_reply_text_is_cut_at_a_colon_witness :
  send_tweet recordingClient "REPLY:1001:Fun fact: Base is an L2" []
  = {| returned := Ok "Tweet sent as reply: 2001";
       world_after := [CallReply (Some "Fun fact") (Some "1001")];
       logged := [] |}.
Proof.
  apply (X15_reply_text_is_cut_at_a_colon (list clientCall) recordingClient
           [] "1001" "Fun fact" " Base is an L2" eq_refl eq_refl).
Defined.

(** X16. Given ["REPLY:" ++ id] with no second colon, the tool still calls
    the reply sink, with the target [id] and an undefined text. *)
Theorem X16_reply_without_text_passes_undefined :
  forall (World : Type) (client : TwitterClient World) (w : World)
         (id : string),
    colonFree id = true ->
    send_tweet client ("REPLY:" ++ id) w
    = toolOutcome "Tweet sent as reply: "
                  (client_reply client None (Some id) w).
Proof.
  intros World client w id Hid.
  assert (Hsplit : split_limit ":" 3 ("REPLY:" ++ id) = ["REPLY"; id]).
  { unfold split_limit.
    change ("REPLY:" ++ id) with ("REPLY" ++ String ":" id).
    by rewrite (split_colon_app "REPLY" _ eq_refl), (split_colonFree id Hid). }
  apply send_tweet_reply; [apply prefix_REPLY| |]; by rewrite Hsplit.
Qed.

Lemma X16_reply_without_text_passes_undefined_witness :
  send_tweet recordingClient "REPLY:1001" []
  = {| returned := Throw (Error "Failed to send tweet");
       world_after := [CallReply None (Some "1001")];
       logged := [("Error sending tweet:", Error "400 Bad Request")] |}.
Proof.
  apply (X16_reply_without_text_passes_undefined (list clientCall)
           recordingClient [] "1001" eq_refl).
Defined.

(** X17. The tool never lets an error of the client through: whatever the
    input, it either returns a sentence that starts with "Tweet sent" and
    logs nothing, or throws the error "Failed to send tweet" after logging
    the error that the one call to the client threw. An input that does
    not start with "REPLY:" is tweeted whole. *)
Theorem X17_tool_replaces_every_error :
  forall (World : Type) (client : TwitterClient World) (w : World)
         (input : string),
    let o := send_tweet client input w in
    ((exists sent,
         returned o = Ok ("Tweet sent" ++ sent)%string /\ logged o = []) \/
     (exists e,
         returned o = Throw (Error "Failed to send tweet") /\
         logged o = [("Error sending tweet:", e)] /\
         ((client_tweet client input w).1 = Throw e \/
          exists text replyToId,
            (client_reply client text (Some replyToId) w).1 = Throw e))) /\
    (String.prefix "REPLY:" input = false ->
     o = toolOutcome "Tweet sent: " (client_tweet client input w)).
Proof.
  intros World client w input. simpl. split.
  - unfold send_tweet, send_tweet_try.
    destruct (String.prefix "REPLY:" input) eqn:Hp.
    + destruct (reply_target_defined input Hp) as [id Hid]. rewrite Hid.
      destruct (client_reply client _ (Some id) w) as [[rid|e] w'] eqn:Hr.
      * left. exists (" as reply: " ++ rid)%string. by simpl.
      * right. exists e. simpl. repeat split; try done. right.
        eexists _, id. by rewrite Hr.
    + destruct (client_tweet client input w) as [[rid|e] w'] eqn:Ht.
      * left. exists (": " ++ rid)%string. by simpl.
      * right. exists e. simpl. repeat split; try done. by left.
  - intros Hp. unfold send_tweet, send_tweet_try, toolOutcome. rewrite Hp.
    by destruct (client_tweet client input w) as [[rid|e] w'].
Qed.

Lemma X17_tool_replaces_every_error_witness :
  send_tweet recordingClient "reply:1001:gm" []
  = toolOutcome "Tweet sent: "
                (client_tweet recordingClient "reply:1001:gm" []).
Proof.
  apply (proj2 (X17_tool_replaces_every_error (list clientCall)
                  recordingClient [] "reply:1001:gm")).
  reflexivity.
Defined.
End SendTweetTheorems.

(** ** [initialize] *)

Section UnescapeFacts.
Local Open Scope string_scope.

Lemma unescapeNewlines_pair c c' s :
  unescapeNewlines (String c (String c' s))
  = if Ascii.eqb c backslash && Ascii.eqb c' "n"
    then String newline (unescapeNewlines s)
    else String c (unescapeNewlines (String c' s)).
Proof. reflexivity. Qed.

Lemma unescapeNewlines_head c s :
  match unescapeNewlines (String c s) with
  | String h _ => h = newline \/ h = c
  | EmptyString => False
  end.
Proof.
  simpl. destruct s as [|c' s]; [by right|].
  destruct (Ascii.eqb c backslash && Ascii.eqb c' "n"); [by left|by right].
Qed.

Lemma unescapeNewlines_clean_upto (n : nat) s :
  (String.length s <= n)%nat -> hasEscape (unescapeNewlines s) = false.
Proof.
  revert s. induction n as [|n IH]; intros s Hlen.
  - destruct s; [reflexivity|simpl in Hlen; lia].
  - destruct s as [|c [|c' s]]; [reflexivity|reflexivity|].
    simpl in Hlen. rewrite unescapeNewlines_pair.
    destruct (Ascii.eqb c backslash && Ascii.eqb c' "n") eqn:Hpair.
    + assert (Hrest : hasEscape (unescapeNewlines s) = false)
        by (apply IH; lia).
      destruct (unescapeNewlines s) as [|h t]; [reflexivity|].
      change (hasEscape (String newline (String h t)))
        with ((Ascii.eqb newline backslash && Ascii.eqb h "n")
              || hasEscape (String h t)).
      by rewrite Hrest.
    + assert (Hrest : hasEscape (unescapeNewlines (String c' s)) = false)
        by (apply IH; simpl; lia).
      pose proof (unescapeNewlines_head c' s) as Hhead.
      destruct (unescapeNewlines (String c' s)) as [|h t]; [done|].
      change (hasEscape (String c (String h t)))
        with ((Ascii.eqb c backslash && Ascii.eqb h "n")
              || hasEscape (String h t)).
      rewrite Hrest, orb_false_r.
      destruct Hhead as [->| ->]; [|exact Hpair].
      by rewrite andb_false_r.
Qed.

Lemma unescapeNewlines_fixed_upto (n : nat) s :
  (String.length s <= n)%nat -> hasEscape s = false -> unescapeNewlines s = s.
Proof.
  revert s. induction n as [|n IH]; intros s Hlen Hclean.
  - destruct s; [reflexivity|simpl in Hlen; lia].
  - destruct s as [|c [|c' s]]; [reflexivity|reflexivity|].
    simpl in Hlen. cbn [hasEscape] in Hclean.
    apply orb_false_elim in Hclean as [Hpair Hrest].
    rewrite unescapeNewlines_pair, Hpair. f_equal.
    apply IH; [simpl; lia|exact Hrest].
Qed.
End UnescapeFacts.

Section RegistryFacts.
Implicit Types (tools : gmap string Tool.t) (agentKitTools : list Tool.t).

(** After the loop of lines 63-65, a name leads to the last tool of
    AgentKit that bears it, or to what it led to before. *)
Lemma registerAll_lookup agentKitTools tools (name : string) :
  registerAll agentKitTools tools !! name
  = match last (filter (fun tool => Tool.name tool = name) agentKitTools) with
    | Some tool => Some tool
    | None => tools !! name
    end.
Proof.
  revert tools. induction agentKitTools as [|tool l IH]; intros tools;
    [reflexivity|].
  unfold registerAll in *. simpl. rewrite IH, filter_cons.
  destruct (decide (Tool.name tool = name)) as [Heq|Hne].
  - destruct (filter _ l) as [|t' l'] eqn:Hf; simpl.
    + rewrite <- Heq. apply lookup_insert_eq.
    + destruct (last (t' :: l')) eqn:Hlast; [reflexivity|].
      by apply last_None in Hlast.
  - destruct (last (filter _ l)); [reflexivity|].
    by apply lookup_insert_ne.
Qed.
End RegistryFacts.

Section InitializeTheorems.
Local Open Scope string_scope.

(** X18. The replacement of line 40 leaves no backslash followed by [n]
    in the secret, so that doing it twice is doing it once; a secret
    without such a pair is handed over unchanged, and an undefined secret
    stays undefined. *)
Theorem X18_secret_has_no_escaped_newline_left :
  (forall s : string,
      hasEscape (unescapeNewlines s) = false /\
      unescapeNewlines (unescapeNewlines s) = unescapeNewlines s /\
      (hasEscape s = false -> unescapeNewlines s = s)) /\
  (forall env : Env,
      match apiKeySecret (walletConfig env) with
      | Some secret =>
          hasEscape secret = false /\
          exists raw, CDP_API_KEY_PRIVATE_KEY env = Some raw
      | None => CDP_API_KEY_PRIVATE_KEY env = None
      end).
Proof.
  assert (Hclean : forall s, hasEscape (unescapeNewlines s) = false)
    by (intros s; by apply (unescapeNewlines_clean_upto (String.length s))).
  assert (Hfixed : forall s, hasEscape s = false -> unescapeNewlines s = s)
    by (intros s; by apply (unescapeNewlines_fixed_upto (String.length s))).
  split.
  - intros s. split; [apply Hclean|]. split; [|apply Hfixed].
    apply Hfixed, Hclean.
  - intros env. unfold walletConfig. simpl.
    destruct (CDP_API_KEY_PRIVATE_KEY env) as [raw|]; simpl; [|done].
    split; [apply Hclean|by exists raw].
Qed.

(** X19. Without [GOOGLE_API_KEY] (undefined or empty), [initialize] never
    returns normally, and leaves the model unset and the registry of tools
    as it was. When the wallet provider and AgentKit were set up, it
    throws "GOOGLE_API_KEY must be set in .env file" with [agentKit]
    already assigned, and calls nothing after that. *)
Theorem X19_initialize_needs_the_google_key :
  forall (Wallet Kit World : Type) (platform : Platform Wallet Kit World)
         (env : Env) (i : instance Kit) (w : World),
    GOOGLE_API_KEY env = None \/ GOOGLE_API_KEY env = Some "" ->
    let o := initialize platform env i w in
    (exists e, init_result o = Throw e) /\
    core (init_instance o) = core i /\
    tools (init_instance o) = tools i /\
    init_logged o = [] /\
    (forall walletProvider w1 kit w2,
        configureWithWallet platform (walletConfig env) w
        = (Ok walletProvider, w1) ->
        AgentKit_from platform walletProvider w1 = (Ok kit, w2) ->
        o = {| init_result :=
                 Throw (Error "GOOGLE_API_KEY must be set in .env file");
               init_instance :=
                 {| agentKit := Some kit; core := core i;
                    tools := tools i |};
               init_world := w2;
               init_logged := [] |}).
Proof.
  intros Wallet Kit World platform env i w Hkey.
  assert (Hmiss : keyMissing env = true)
    by (unfold keyMissing; by destruct Hkey as [-> | ->]).
  unfold initialize, rejected. simpl.
  destruct (configureWithWallet platform (walletConfig env) w)
    as [[walletProvider|e] w1];
    [|repeat split; eauto; intros; discriminate].
  destruct (AgentKit_from platform walletProvider w1) as [[kit|e] w2] eqn:Hk;
    [|repeat split; eauto; intros ? ? ? ? [= <- <-] Hk'; congruence].
  rewrite Hmiss. repeat split; eauto.
  intros ? ? ? ? [= <- <-] Hk'. rewrite Hk in Hk'.
  injection Hk' as <- <-. reflexivity.
Qed.

Lemma X19_initialize_needs_the_google_key_witness :
  initialize workingPlatform envWithoutGoogleKey constructed []
  = {| init_result :=
         Throw (Error "GOOGLE_API_KEY must be set in .env file");
       init_instance :=
         {| agentKit := Some tt; core := core (@constructed unit);
            tools := tools (@constructed unit) |};
       init_world :=
         [ConfigureWithWallet (walletConfig envWithoutGoogleKey);
          AgentKitFrom];
       init_logged := [] |}.
Proof.
  apply (proj2 (proj2 (proj2 (proj2
           (X19_initialize_needs_the_google_key
              unit unit (list serviceCall) workingPlatform
              envWithoutGoogleKey constructed [] (or_introl eq_refl)))))
           tt [ConfigureWithWallet (walletConfig envWithoutGoogleKey)] tt);
    reflexivity.
Defined.

(** X20. When [initialize] returns normally, the model is set, [agentKit]
    is assigned, the name "send_tweet" leads to the Twitter tool, no name
    registered before has been lost, the last call made was the writing of
    the wallet file, and [processedTweets] and the cursor are what they
    were. *)
Theorem X20_initialize_returns_a_ready_agent :
  forall (Wallet Kit World : Type) (platform : Platform Wallet Kit World)
         (env : Env) (i : instance Kit) (w : World),
    let o := initialize platform env i w in
    init_result o = Ok tt ->
    model (core (init_instance o)) = true /\
    processedTweets (core (init_instance o)) = processedTweets (core i) /\
    lastProcessedMentionId (core (init_instance o))
    = lastProcessedMentionId (core i) /\
    is_Some (agentKit (init_instance o)) /\
    tools (init_instance o) !! "send_tweet" = Some twitterTool /\
    (forall name, is_Some (tools i !! name) ->
                  is_Some (tools (init_instance o) !! name)) /\
    (exists key, GOOGLE_API_KEY env = Some key /\ key <> "") /\
    (exists data w4,
        writeFileSync platform WALLET_DATA_FILE data w4
        = (Ok tt, init_world o)) /\
    init_logged o = ["Agent initialized on Base Sepolia"].
Proof.
  intros Wallet Kit World platform env i w. unfold initialize, rejected.
  simpl.
  destruct (configureWithWallet platform (walletConfig env) w)
    as [[walletProvider|e] w1]; [|discriminate].
  destruct (AgentKit_from platform walletProvider w1) as [[kit|e] w2];
    [|discriminate].
  destruct (keyMissing env) eqn:Hkey; [discriminate|].
  destruct (getLangChainTools platform kit w2) as [[agentKitTools|e] w3];
    [|discriminate].
  destruct (exportWallet platform walletProvider w3) as [[data|e] w4];
    [|discriminate].
  destruct (writeFileSync platform WALLET_DATA_FILE data w4)
    as [[[]|e] w5] eqn:Hwrite; [|discriminate].
  intros _. simpl. repeat split; try done.
  - unfold registerTools. apply lookup_insert_eq.
  - intros name [tool Htool]. unfold registerTools.
    destruct (decide ("send_tweet" = name)) as [<-|Hne].
    + rewrite lookup_insert_eq. by eexists.
    + rewrite lookup_insert_ne by done. rewrite registerAll_lookup.
      destruct (last _); [by eexists|]. rewrite Htool. by eexists.
  - unfold keyMissing in Hkey.
    destruct (GOOGLE_API_KEY env) as [key|]; [|discriminate].
    exists key. split; [reflexivity|].
    apply negb_false_iff in Hkey. by apply truthy_true.
  - by exists data, w4.
Qed.

Lemma X20_initialize_returns_a_ready_agent_witness :
  model (core (init_instance
                 (initialize workingPlatform envComplete constructed [])))
  = true.
Proof.
  apply (X20_initialize_returns_a_ready_agent
           unit unit (list serviceCall) workingPlatform envComplete
           constructed [] eq_refl).
Defined.

(** X21. In the registry that lines 62-89 build, "send_tweet" leads to the
    Twitter tool even when AgentKit brings a tool of that name; any other
    name leads to the last tool of AgentKit that bears it, or else to what
    it led to before. If every tool was registered under its own name,
    this is still so. *)
Theorem X21_registry_lookup :
  forall (agentKitTools : list Tool.t) (tools : gmap string Tool.t),
    registerTools agentKitTools tools !! "send_tweet" = Some twitterTool /\
    (forall name,
        name <> "send_tweet" ->
        registerTools agentKitTools tools !! name
        = match last (filter (fun tool => Tool.name tool = name)
                             agentKitTools) with
          | Some tool => Some tool
          | None => tools !! name
          end) /\
    ((forall name tool, tools !! name = Some tool -> Tool.name tool = name) ->
     forall name tool,
       registerTools agentKitTools tools !! name = Some tool ->
       Tool.name tool = name).
Proof.
  intros agentKitTools tools.
  assert (Hother : forall name,
             name <> "send_tweet" ->
             registerTools agentKitTools tools !! name
             = match last (filter (fun tool => Tool.name tool = name)
                                  agentKitTools) with
               | Some tool => Some tool
               | None => tools !! name
               end).
  { intros name Hne. unfold registerTools.
    rewrite lookup_insert_ne by done. apply registerAll_lookup. }
  split; [apply lookup_insert_eq|]. split; [exact Hother|].
  intros Hnames name tool.
  destruct (decide (name = "send_tweet")) as [->|Hne].
  - unfold registerTools. rewrite lookup_insert_eq. by intros [= <-].
  - rewrite (Hother name Hne).
    destruct (last (filter _ agentKitTools)) as [tool'|] eqn:Hlast.
    + intros [= <-]. apply last_Some_elem_of in Hlast.
      by apply list_elem_of_filter in Hlast as [Hname _].
    + apply Hnames.
Qed.

Lemma X21_registry_lookup_witness :
  registerTools [balanceTool; rivalTool] ∅ !! "get_balance"
  = Some balanceTool.
Proof.
  rewrite (proj1 (proj2 (X21_registry_lookup [balanceTool; rivalTool] ∅))
             "get_balance" ltac:(discriminate)).
  reflexivity.
Defined.

(** X22. After [initialize], however it ended, the model is set exactly
    when it was set before or the call got past the key check: the wallet
    provider and AgentKit were set up and [GOOGLE_API_KEY] is not empty. A
    failure of the later steps (the tools, the export or the writing of
    the wallet file) leaves the model set. *)
Theorem X22_model_is_set_past_the_key_check :
  forall (Wallet Kit World : Type) (platform : Platform Wallet Kit World)
         (env : Env) (i : instance Kit) (w : World),
    model (core (init_instance (initialize platform env i w))) = true <->
    model (core i) = true \/
    (keyMissing env = false /\
     exists walletProvider w1 kit w2,
       configureWithWallet platform (walletConfig env) w
       = (Ok walletProvider, w1) /\
       AgentKit_from platform walletProvider w1 = (Ok kit, w2)).
Proof.
  intros Wallet Kit World platform env i w. unfold initialize, rejected.
  destruct (configureWithWallet platform (walletConfig env) w)
    as [[walletProvider|e] w1]; simpl;
    [|split; [by left|intros [Hm|(_ & ? & ? & ? & ? & [=] & _)]; done]].
  destruct (AgentKit_from platform walletProvider w1) as [[kit|e] w2] eqn:Hk;
    simpl.
  - destruct (keyMissing env) eqn:Hkey; simpl.
    + split; [by left|]. by intros [Hm|([=] & _)].
    + assert (Hpast : model (core i) = true \/
                      (false = false /\
                       exists walletProvider0 w0 kit0 w3,
                         (Ok walletProvider, w1)
                         = (Ok walletProvider0, w0) /\
                         AgentKit_from platform walletProvider0 w0
                         = (Ok kit0, w3))).
      { right. split; [done|]. by exists walletProvider, w1, kit, w2. }
      destruct (getLangChainTools platform kit w2)
        as [[agentKitTools|e] w3]; simpl; [|done].
      destruct (exportWallet platform walletProvider w3) as [[data|e] w4];
        simpl; [|done].
      by destruct (writeFileSync platform WALLET_DATA_FILE data w4)
        as [[[]|e] w5].
  - split; [by left|].
    intros [Hm|(_ & ? & ? & ? & ? & [= <- <-] & Hk')]; [done|].
    rewrite Hk in Hk'. discriminate Hk'.
Qed.
End InitializeTheorems.
